(** * The query engine of the pipes2 example server

    A shallow embedding of the query code of [src/mock-db.js] (the functions
    [epgUtils], [fuse], [calculateLimit], [getMediaItems], [getPrograms] and
    the module constants [maxResults], [now], [startOfWeek]) and of the code
    of the [/media] route of [src/routes.js] that builds [filters] and
    [sorts] from the query string.

    JavaScript values are modelled in the fragment the engine uses: numbers
    are the doubles, a Luxon [DateTime] is its epoch milliseconds,
    a stored record is a finite map from property names to values and the
    array held by lowdb under a key is a list of records in which a position
    is the identity of the object stored there.  A lowdb chain wraps the
    state object, not an array, so lodash runs each of its steps in full
    and in order: a [map] visits every record it is given before the
    [drop] and the [take] that follow it. *)

From Stdlib Require Import ZArith Ascii String List Bool Lia Sorted Permutation.
From stdpp Require Import gmap strings list fin_maps sorting.

Local Open Scope Z_scope.
Local Open Scope string_scope.

(** ** JavaScript values *)

Module Js.

(** A number.  The numbers of JavaScript are the doubles: the integers
    and the fractions [m / 2 ^ e] of at most 53 significant bits, within
    the range of the exponent, the two infinities and NaN.  A fraction is
    written in lowest terms, with [m] odd.  Zero is written without its
    sign: no operation of the engine tells -0 from 0. *)
Inductive Num : Type :=
| Int (z : Z)
| Frac (m : Z) (e : positive)
| Inf (negative : bool)
| NaN.

(** A string is the sequence of its code units, taken below 256. *)
Inductive Val : Type :=
| Undefined
| Null
| Bool (b : bool)
| Number (n : Num)
| Str (s : string)
| DateTime (ms : Z)                    (* a Luxon DateTime, by its epoch milliseconds *)
| Object (props : list (string * Z)).  (* a plain JSON object, such as a duration literal *)

(** The primitive values a query string is cast to. *)
Inductive Prim : Type :=
| PBool (b : bool)
| PNumber (n : Num)
| PStr (s : string).

Definition of_prim (p : Prim) : Val :=
  match p with
  | PBool b => Bool b
  | PNumber n => Number n
  | PStr s => Str s
  end.

(** *** Rounding to a double *)

(** The integer nearest to [a / b], for [b] positive, and of two that are
    as near the even one. *)
Definition nearest_integer (a b : Z) : Z :=
  let q := a / b in
  match Z.compare (2 * (a mod b)) b with
  | Lt => q
  | Eq => if Z.even q then q else q + 1
  | Gt => q + 1
  end.

(** [m * 2 ^ k] in lowest terms, for [m] not negative. *)
Definition dyadic (m k : Z) : Num :=
  if Z.eqb m 0 then Int 0
  else if Z.leb 0 k then Int (m * 2 ^ k)
  else
    let twos := Z.min (Z.log2 (Z.land m (- m))) (- k) in
    if Z.eqb twos (- k) then Int (m / 2 ^ twos)
    else Frac (m / 2 ^ twos) (Z.to_pos (- k - twos)).

(** The double nearest to [a / b], for [a] and [b] positive and with ties
    to the even mantissa: the quotient is rounded to 53 significant bits,
    and to fewer below [2 ^ -1022], where the last place stays
    [2 ^ -1074]; what reaches [2 ^ 1024] is infinite. *)
Definition nearest_double (a b : Z) : Num :=
  let e0 := Z.log2 a - Z.log2 b in
  let below :=
    if Z.leb 0 e0 then Z.ltb a (b * 2 ^ e0) else Z.ltb (a * 2 ^ (- e0)) b in
  let exponent := if below then e0 - 1 else e0 in   (* 2 ^ exponent <= a / b < 2 * 2 ^ exponent *)
  let last := Z.max (exponent - 52) (-1074) in      (* the last place is 2 ^ last *)
  let mantissa :=
    if Z.leb 0 last then nearest_integer a (b * 2 ^ last)
    else nearest_integer (a * 2 ^ (- last)) b in
  if Z.leb (2 ^ (1024 - last)) mantissa then Inf false
  else dyadic mantissa last.

Definition negate (n : Num) : Num :=
  match n with
  | Int z => Int (- z)
  | Frac m e => Frac (- m) e
  | Inf negative => Inf (negb negative)
  | NaN => NaN
  end.

(** The double nearest to [a / b], for [b] positive. *)
Definition rational (a b : Z) : Num :=
  match a with
  | 0 => Int 0
  | Z.pos _ => nearest_double a b
  | Z.neg _ => negate (nearest_double (- a) b)
  end.

(** The double nearest to an integer; the integers up to [2 ^ 53] are
    doubles. *)
Definition of_Z (z : Z) : Num :=
  if Z.leb (Z.abs z) (2 ^ 53) then Int z else rational z 1.

(** A finite number is [mantissa / 2 ^ scale]. *)
Definition mantissa (n : Num) : Z :=
  match n with Int z => z | Frac m _ => m | _ => 0 end.

Definition scale (n : Num) : Z :=
  match n with Frac _ e => Z.pos e | _ => 0 end.

(** *** StringToNumber *)

Definition is_space (c : ascii) : bool :=
  existsb (Nat.eqb (nat_of_ascii c)) [9; 10; 11; 12; 13; 32; 160]%nat.

Fixpoint trim_start (s : string) : string :=
  match s with
  | String c r => if is_space c then trim_start r else s
  | EmptyString => EmptyString
  end.

(** [s] without the white space at its end. *)
Fixpoint trim_end (s : string) : string :=
  match s with
  | String c r =>
      match trim_end r with
      | EmptyString => if is_space c then EmptyString else String c EmptyString
      | r' => String c r'
      end
  | EmptyString => EmptyString
  end.

(** The value of a character as a digit of the base, which is at most
    16. *)
Definition digit (base : Z) (c : ascii) : option Z :=
  let n := Z.of_nat (nat_of_ascii c) in
  let d :=
    if (Z.leb 48 n && Z.leb n 57)%bool then n - 48
    else if (Z.leb 97 n && Z.leb n 102)%bool then n - 87
    else if (Z.leb 65 n && Z.leb n 70)%bool then n - 55
    else 16 in
  if Z.ltb d base then Some d else None.

(** The digits at the start of [s]: the integer they write after [acc],
    their number after [count], and the rest of [s]. *)
Fixpoint digits (base acc : Z) (count : nat) (s : string) : Z * nat * string :=
  match s with
  | String c r =>
      match digit base c with
      | Some d => digits base (base * acc + d) (S count) r
      | None => (acc, count, s)
      end
  | EmptyString => (acc, count, s)
  end.

(** What may follow the mantissa of a decimal literal: nothing, or the
    letter e and an integer with or without a sign. *)
Definition exponent_part (s : string) : option Z :=
  match s with
  | EmptyString => Some 0
  | String c r =>
      if (Ascii.eqb c "e" || Ascii.eqb c "E")%bool then
        let '(negative, r) :=
          match r with
          | String "-"%char t => (true, t)
          | String "+"%char t => (false, t)
          | _ => (false, r)
          end in
        match digits 10 0 0 r with
        | (x, S _, EmptyString) => Some (if negative : bool then - x else x)
        | _ => None
        end
      else None
  end.

(** [m * 10 ^ x] as a double, for [m] not negative.  From [10 ^ 309] on
    the double is infinite, and below [10 ^ -324] it is 0: a number of
    [n] bits is below [10 ^ (n / 3 + 1)]. *)
Definition decimal (m x : Z) : Num :=
  if Z.eqb m 0 then Int 0
  else if Z.leb 309 x then Inf false
  else if Z.leb (Z.log2 m / 3 + x) (-325) then Int 0
  else if Z.leb 0 x then rational (m * 10 ^ x) 1
  else rational m (10 ^ (- x)).

(** A decimal literal without a sign: the word Infinity, or digits with
    at most one point among them and an exponent part; a literal has a
    digit before its exponent part. *)
Definition decimal_literal (s : string) : Num :=
  if String.eqb s "Infinity" then Inf false
  else
    let '(whole, wholeDigits, r) := digits 10 0 0 s in
    let '(m, fractionDigits, r) :=
      match r with
      | String "."%char t => digits 10 whole 0 t
      | _ => (whole, 0%nat, r)
      end in
    if Nat.eqb (wholeDigits + fractionDigits) 0 then NaN
    else
      match exponent_part r with
      | Some x => decimal m (x - Z.of_nat fractionDigits)
      | None => NaN
      end.

(** A literal with a radix prefix: 0x, 0o or 0b, in either case, and at
    least one digit of the radix. *)
Definition radix_literal (s : string) : option Num :=
  match s with
  | String "0"%char (String c r) =>
      let base :=
        if (Ascii.eqb c "x" || Ascii.eqb c "X")%bool then 16
        else if (Ascii.eqb c "o" || Ascii.eqb c "O")%bool then 8
        else if (Ascii.eqb c "b" || Ascii.eqb c "B")%bool then 2
        else 0 in
      if Z.eqb base 0 then None
      else
        match digits base 0 0 r with
        | (z, S _, EmptyString) => Some (of_Z z)
        | _ => Some NaN
        end
  | _ => None
  end.

(** StringToNumber: white space is trimmed, the empty string is 0, a
    literal with a radix prefix takes no sign, a decimal literal may have
    one, and a string that is no numeric literal is NaN. *)
Definition string_to_number (s : string) : Num :=
  match trim_end (trim_start s) with
  | EmptyString => Int 0
  | String "+"%char r => decimal_literal r
  | String "-"%char r => negate (decimal_literal r)
  | r =>
      match radix_literal r with
      | Some n => n
      | None => decimal_literal r
      end
  end.

(** *** Conversions *)

(** ToPrimitive with the hint "number": a DateTime answers [valueOf] with
    its milliseconds, and a plain object ends at the [toString] of
    [Object.prototype].  The plain objects are taken without a member
    [toString] of their own: JSON makes no function of one, and the
    conversion of an object that has one throws. *)
Definition to_primitive (v : Val) : Val :=
  match v with
  | DateTime ms => Number (Int ms)
  | Object _ => Str "[object Object]"
  | _ => v
  end.

(** ToNumber, which is also the call [Number(v)]. *)
Definition to_number (v : Val) : Num :=
  match to_primitive v with
  | Undefined => NaN
  | Null => Int 0
  | Bool b => Int (if b then 1 else 0)
  | Number n => n
  | Str s => string_to_number s
  | _ => NaN
  end.

(** ToBoolean. *)
Definition truthy (v : Val) : bool :=
  match v with
  | Undefined | Null => false
  | Bool b => b
  | Number (Int z) => negb (Z.eqb z 0)
  | Number NaN => false
  | Number _ => true
  | Str s => negb (String.eqb s EmptyString)
  | DateTime _ | Object _ => true
  end.

(** *** Comparison and arithmetic *)

(** The order of two numbers; NaN compares with nothing. *)
Definition compare_num (a b : Num) : option comparison :=
  match a, b with
  | Int x, Int y => Some (Z.compare x y)
  | NaN, _ | _, NaN => None
  | Inf s, Inf t => Some (if Bool.eqb s t then Eq else if s then Lt else Gt)
  | Inf s, _ => Some (if s then Lt else Gt)
  | _, Inf t => Some (if t then Gt else Lt)
  | _, _ =>
      Some (Z.compare (mantissa a * 2 ^ scale b) (mantissa b * 2 ^ scale a))
  end.

(** The abstract relational comparison: two strings are compared as
    strings, unit by unit, anything else as numbers. *)
Definition compare (a b : Val) : option comparison :=
  match to_primitive a, to_primitive b with
  | Str s, Str t => Some (String.compare s t)
  | pa, pb => compare_num (to_number pa) (to_number pb)
  end.

Definition lt (a b : Val) : bool :=
  match compare a b with Some Lt => true | _ => false end.
Definition gt (a b : Val) : bool :=
  match compare a b with Some Gt => true | _ => false end.
Definition le (a b : Val) : bool :=
  match compare a b with Some Lt | Some Eq => true | _ => false end.
Definition ge (a b : Val) : bool :=
  match compare a b with Some Gt | Some Eq => true | _ => false end.

(** [a === b]; two objects met at different places are different
    references. *)
Definition strict_eq (a b : Val) : bool :=
  match a, b with
  | Undefined, Undefined | Null, Null => true
  | Bool x, Bool y => Bool.eqb x y
  | Number (Int x), Number (Int y) => Z.eqb x y
  | Number (Frac m e), Number (Frac m' e') => (Z.eqb m m' && Pos.eqb e e')%bool
  | Number (Inf s), Number (Inf t) => Bool.eqb s t
  | Str s, Str t => String.eqb s t
  | _, _ => false
  end.

(** The product and the difference of two numbers.  Those of two
    integers are kept as they are: the engine uses them as counts against
    the length of an array, where the rounding of what exceeds [2 ^ 53]
    decides nothing.  The others are rounded to the nearest double. *)
Definition mul_num (a b : Num) : Num :=
  match a, b with
  | Int x, Int y => Int (x * y)
  | NaN, _ | _, NaN => NaN
  | Inf s, Inf t => Inf (xorb s t)
  | Inf s, n | n, Inf s =>
      match Z.compare (mantissa n) 0 with
      | Eq => NaN
      | Lt => Inf (negb s)
      | Gt => Inf s
      end
  | _, _ => rational (mantissa a * mantissa b) (2 ^ (scale a + scale b))
  end.

Definition sub_num (a b : Num) : Num :=
  match a, b with
  | Int x, Int y => Int (x - y)
  | NaN, _ | _, NaN => NaN
  | Inf s, Inf t => if Bool.eqb s t then NaN else Inf s
  | Inf s, _ => Inf s
  | _, Inf t => Inf (negb t)
  | _, _ =>
      rational (mantissa a * 2 ^ scale b - mantissa b * 2 ^ scale a)
               (2 ^ (scale a + scale b))
  end.

(** The sum of two numbers, rounded to the nearest double. *)
Definition add (a b : Num) : Num :=
  match a, b with
  | Int x, Int y => of_Z (x + y)
  | NaN, _ | _, NaN => NaN
  | Inf s, Inf t => if Bool.eqb s t then Inf s else NaN
  | Inf s, _ => Inf s
  | _, Inf t => Inf t
  | _, _ =>
      rational (mantissa a * 2 ^ scale b + mantissa b * 2 ^ scale a)
               (2 ^ (scale a + scale b))
  end.

(** [a * b] and [a - b] convert their operands to numbers. *)
Definition mul (a b : Val) : Num := mul_num (to_number a) (to_number b).
Definition sub (a b : Val) : Num := sub_num (to_number a) (to_number b).

End Js.

Abbreviation Obj := (gmap string Js.Val).

(** [o.k]: the value of a property, [undefined] when the object has none. *)
Definition prop (o : Obj) (k : string) : Js.Val :=
  default Js.Undefined (o !! k).


(** A reference to a stored record is its position in the array that holds
    it; reading through a reference that points nowhere gives an object
    without properties. *)
Definition deref (heap : list Obj) (ref : nat) : Obj :=
  default ∅ (heap !! ref).

(** ** The libraries the engine calls

    The engine calls lodash, Fuse.js and Luxon.  What those functions compute
    on the modelled values is defined below where it is short; the rest is
    taken as their interface. *)
Record Library : Type := {
  (* [_.camelCase] *)
  camelCase : string -> string;
  (* [_.property(path)], the accessor lodash makes of a sort key *)
  property : string -> Obj -> Js.Val;
  (* [new Fuse(items, {keys: [id, title, summary]}).search(s)], mapped to
     the items: the matching items, best match first *)
  fuseSearch : list Obj -> list nat -> Js.Val -> list nat;
  (* [DateTime#startOf] with the unit week, in the process's zone *)
  startOf_week : Z -> Z;
  (* [DateTime#plus] on what a record stores as a duration; nothing when
     Luxon throws *)
  plusDuration : Z -> Js.Val -> option Z;
  (* [DateTime#plus] on the object with the one property seconds *)
  plusSeconds : Z -> Js.Val -> option Z;
  plusSeconds_number :
    forall t d, plusSeconds t (Js.Number (Js.Int d)) = Some (t + 1000 * d);
  (* [DateTime#ordinal], the day of the year; NaN on an invalid DateTime *)
  ordinal : Z -> Js.Num
}.

(** ** lodash *)

Module Lodash.

(** [_.defaultTo(value, defaultValue)]: the default replaces NaN, null and
    undefined, and nothing else. *)
Definition defaultTo (value defaultValue : Js.Val) : Js.Val :=
  match value with
  | Js.Undefined | Js.Null | Js.Number Js.NaN => defaultValue
  | _ => value
  end.

(** [MAX_INTEGER], the largest double. *)
Definition MAX_INTEGER : Z := (2 ^ 53 - 1) * 2 ^ 971.

(** [_.toInteger]: NaN becomes 0, an infinity the largest double with its
    sign, and a fraction loses what follows its point. *)
Definition toInteger (n : Js.Val) : Z :=
  match Js.to_number n with
  | Js.Int z => z
  | Js.Frac m e => Z.quot m (2 ^ Z.pos e)
  | Js.Inf negative => if negative then - MAX_INTEGER else MAX_INTEGER
  | Js.NaN => 0
  end.

(** The count [_.drop] and [_.take] make of their argument: 1 when it is
    undefined, else its integer, and a negative one counts as 0. *)
Definition count (n : Js.Val) : nat :=
  match n with
  | Js.Undefined => 1%nat
  | _ => Z.to_nat (toInteger n)
  end.

Definition drop {A : Type} (array : list A) (n : Js.Val) : list A :=
  skipn (count n) array.

Definition take {A : Type} (array : list A) (n : Js.Val) : list A :=
  firstn (count n) array.

(** [_.matches(source)], which [_.filter] makes of an object: every property
    of the source is a property of the object with the same value.  The
    sources the routes build hold primitive values; lodash compares those
    with [===] and lets NaN match NaN. *)
Definition sameValue (a b : Js.Val) : bool :=
  match a, b with
  | Js.Number Js.NaN, Js.Number Js.NaN => true
  | _, _ => Js.strict_eq a b
  end.

Definition matches (source : gmap string Js.Prim) (object : Obj) : bool :=
  forallb (fun '(key, srcValue) =>
             match object !! key with
             | Some objValue => sameValue objValue (Js.of_prim srcValue)
             | None => false
             end)
          (map_to_list source).

(** [_.filter(collection, source)], as the references of the records kept. *)
Definition filter (collection : list Obj) (source : gmap string Js.Prim) : list nat :=
  List.filter (fun ref => matches source (deref collection ref))
              (seq 0 (length collection)).

(** [compareAscending] of lodash, without its cases for symbols. *)
Definition compareAscending (value other : Js.Val) : comparison :=
  if Js.strict_eq value other then Eq else
  let valIsDefined := match value with Js.Undefined => false | _ => true end in
  let valIsNull := match value with Js.Null => true | _ => false end in
  let valIsReflexive := match value with Js.Number Js.NaN => false | _ => true end in
  let othIsDefined := match other with Js.Undefined => false | _ => true end in
  let othIsNull := match other with Js.Null => true | _ => false end in
  let othIsReflexive := match other with Js.Number Js.NaN => false | _ => true end in
  if (negb othIsNull && Js.gt value other)
     || (valIsNull && othIsDefined && othIsReflexive)
     || (negb valIsDefined && othIsReflexive)
     || negb valIsReflexive
  then Gt
  else if (negb valIsNull && Js.lt value other)
          || (othIsNull && valIsDefined && valIsReflexive)
          || (negb othIsDefined && valIsReflexive)
          || negb othIsReflexive
  then Lt
  else Eq.

(** An element under sort: its criteria, its index in the collection and
    the element. *)
Definition Entry : Type := list Js.Val * nat * nat.

Fixpoint compareCriteria (objCriteria othCriteria : list Js.Val) : comparison :=
  match objCriteria, othCriteria with
  | v :: vs, o :: os =>
      match compareAscending v o with
      | Eq => compareCriteria vs os
      | result => result
      end
  | _, _ => Eq
  end.

(** [compareMultiple] with no orders, as [_.sortBy] calls it: every key
    ascending, and the index decides between equal criteria. *)
Definition compareMultiple (object other : Entry) : comparison :=
  match compareCriteria (fst (fst object)) (fst (fst other)) with
  | Eq => Nat.compare (snd (fst object)) (snd (fst other))
  | result => result
  end.

Fixpoint insert (comparer : Entry -> Entry -> comparison) (x : Entry)
    (sorted : list Entry) : list Entry :=
  match sorted with
  | [] => [x]
  | y :: rest =>
      match comparer x y with
      | Gt => y :: insert comparer x rest
      | _ => x :: sorted
      end
  end.

(** [array.sort(comparer)], by insertion: the order every sort gives when
    the comparer is an order, as [compareMultiple] is on criteria of one
    type. *)
Definition baseSortBy (comparer : Entry -> Entry -> comparison)
    (array : list Entry) : list Entry :=
  foldr (insert comparer) [] array.

(** [_.sortBy(collection, iteratees)] on keys: each key is a property
    accessor, and with no key lodash sorts by the identity, whose criterion
    is the record itself, a plain object. *)
Definition sortBy (access : string -> Obj -> Js.Val) (heap : list Obj)
    (collection : list nat) (iteratees : list string) : list nat :=
  let criteria (object : Obj) :=
    match iteratees with
    | [] => [Js.Object []]
    | _ => map (fun key => access key object) iteratees
    end in
  map snd
      (baseSortBy compareMultiple
         (imap (fun index ref => (criteria (deref heap ref), index, ref)) collection)).

End Lodash.

(** ** The [/media] route: [filters] and [sorts] *)

Section Routes.

Variable lib : Library.

(** [key.substring(2)]. *)
Definition substring2 (key : string) : string :=
  String.substring 2 (String.length key - 2) key.

(** [req.query] is the object Express makes of the query string, given
    here by its entries in their order.  The names of the entries are
    distinct, as the keys of an object are, and the values are strings:
    that is the query of a query string which gives each name once and
    without brackets (where a name comes twice or with brackets, Express
    makes one entry of it whose value is an array or an object).

    One step of the reduction over [req.query]: a parameter whose name
    starts with [by] becomes a filter on the field its name spells out. *)
Definition addFilter (result : gmap string Js.Prim) (entry : string * string)
    : gmap string Js.Prim :=
  let '(key, value) := entry in
  if String.prefix "by" key then
    let castedValue := Js.PStr value in
    let castedValue :=
      if String.eqb value "true" then Js.PBool true else castedValue in
    let castedValue :=
      if existsb (String.eqb key) ["bySeasonNumber"; "byEpisodeNumber"]
      then Js.PNumber (Js.string_to_number value)
      else castedValue in
    <[camelCase lib (substring2 key) := castedValue]> result
  else result.

(** [filters], reduced from the parameters of the query string in their
    order. *)
Definition filters (query : list (string * string)) : gmap string Js.Prim :=
  fold_left addFilter query ∅.

(** [s.split(",")]. *)
Fixpoint split_comma (s : string) : list string :=
  match s with
  | EmptyString => [EmptyString]
  | String c rest =>
      if Ascii.eqb c ","%char then EmptyString :: split_comma rest
      else match split_comma rest with
           | word :: words => String c word :: words
           | [] => [String c EmptyString]
           end
  end.

(** [sorts]: the keys of [sortBy], none when the parameter is absent or
    empty. *)
Definition sorts (sortBy : option string) : list string :=
  match sortBy with
  | Some s => if Js.truthy (Js.Str s) then split_comma s else []
  | None => []
  end.

End Routes.

(** ** The store and the module constants of [mock-db.js] *)

(** The state lowdb holds in memory: the arrays under the keys [media] and
    [programs].  The queries receive the stored objects themselves, so
    what a query writes into a record stays in the store. *)
Record Db : Type := {
  media : list Obj;
  programs : list Obj
}.

(** The constants the module computes when it is loaded. *)
Record Loaded : Type := {
  now : Z;
  startOfWeek : Z
}.

Definition maxResults : Js.Num := Js.Int 100.

(** The flags of an EPG query, as the [/epg] route copies them from the
    query string. *)
Module EpgFilters.
Record t : Type := {
  now : Js.Val;
  upNext : Js.Val;
  justEnded : Js.Val;
  forDay : Js.Val;
  futureForDay : Js.Val
}.
End EpgFilters.

(** What [getMediaItems] returns; [nextPage] is undefined when absent, and
    the items are references into [media]. *)
Record MediaItems : Type := {
  nextPage : Js.Val;
  items : list nat
}.

(** [collection.map(callback)] with a callback that writes into the record
    it is given and returns it: the records are visited in order and the
    store keeps every write made before a callback throws. *)
Fixpoint forEach (callback : Obj -> option Obj) (collection : list nat)
    (heap : list Obj) : option unit * list Obj :=
  match collection with
  | [] => (Some tt, heap)
  | ref :: rest =>
      match callback (deref heap ref) with
      | Some object => forEach callback rest (<[ref := object]> heap)
      | None => (None, heap)
      end
  end.

(** [array.filter(predicate)] with a predicate that may throw. *)
Fixpoint filterM {A : Type} (predicate : A -> option bool) (array : list A)
    : option (list A) :=
  match array with
  | [] => Some []
  | x :: rest =>
      keep ← predicate x;
      kept ← filterM predicate rest;
      Some (if keep : bool then x :: kept else kept)
  end.

Section MockDb.

Variable lib : Library.

(** The module is loaded once; [clock] is what [DateTime.local()] reads at
    that instant. *)
Definition load (clock : Z) : Loaded :=
  {| now := clock; startOfWeek := startOf_week lib clock |}.

Variable module : Loaded.

(** [program.airTimestamp.plus({ seconds: program.durationInSeconds })];
    a value that is no DateTime has no method [plus]. *)
Definition endOf (program : Obj) : option Z :=
  match prop program "airTimestamp" with
  | Js.DateTime airTimestamp =>
      plusSeconds lib airTimestamp (prop program "durationInSeconds")
  | _ => None
  end.

(** The condition under which [epgUtils] marks a program as live. *)
Definition isAiring (program : Obj) : option bool :=
  if Js.le (prop program "airTimestamp") (Js.DateTime (now module)) then
    ends ← endOf program;
    Some (Js.le (Js.DateTime (now module)) (Js.DateTime ends))
  else Some false.

(** The callback of the first [map] of [epgUtils]. *)
Definition markLive (program : Obj) : option Obj :=
  airing ← isAiring program;
  Some (if airing : bool then <["isLive" := Js.Bool true]> program else program).

(** The predicate of the [justEnded] filter. *)
Definition hasEnded (program : Obj) : option bool :=
  if Js.le (prop program "airTimestamp") (Js.DateTime (now module)) then
    ends ← endOf program;
    Some (Js.ge (Js.DateTime (now module)) (Js.DateTime ends))
  else Some false.

(** The predicate of the [forDay] filter: the day of the year of the
    program against that of the given timestamp, compared with [==].
    [DateTime.fromMillis] makes an invalid DateTime, whose ordinal is NaN,
    of what is no count of milliseconds, and a date has no fraction of a
    millisecond. *)
Definition onDay (forDay : Js.Val) (program : Obj) : option bool :=
  let day :=
    match Js.to_number forDay with
    | Js.Int ms => ordinal lib ms
    | Js.Frac m e => ordinal lib (Z.quot m (2 ^ Z.pos e))
    | Js.Inf _ | Js.NaN => Js.NaN
    end in
  match prop program "airTimestamp" with
  | Js.Undefined | Js.Null => None
  | Js.DateTime airTimestamp =>
      Some (Js.strict_eq (Js.Number (ordinal lib airTimestamp)) (Js.Number day))
  | Js.Object props =>
      Some (match List.find (fun '(k, _) => String.eqb k "ordinal") props with
            | Some (_, z) => Js.strict_eq (Js.Number (Js.Int z)) (Js.Number day)
            | None => false
            end)
  | _ => Some false
  end.

(** [epgUtils(programs, epgFilters)]: the programs are marked, then one
    mode, the first whose flag is set, selects among them. *)
Definition epgUtils (programs : list nat) (epgFilters : EpgFilters.t)
    (heap : list Obj) : option (list nat) * list Obj :=
  match forEach markLive programs heap with
  | (None, heap) => (None, heap)
  | (Some _, heap) =>
      let modifiedPrograms := programs in
      if Js.truthy (EpgFilters.now epgFilters) then
        (Some (List.filter
                 (fun program => Js.truthy (prop (deref heap program) "isLive"))
                 modifiedPrograms), heap)
      else if Js.truthy (EpgFilters.upNext epgFilters) then
        (Some (List.filter
                 (fun program =>
                    Js.le (Js.DateTime (now module))
                          (prop (deref heap program) "airTimestamp"))
                 modifiedPrograms), heap)
      else if Js.truthy (EpgFilters.justEnded epgFilters) then
        (option_map (@rev nat)
                    (filterM (fun program => hasEnded (deref heap program))
                             modifiedPrograms), heap)
      else if Js.truthy (EpgFilters.forDay epgFilters) then
        (filterM (fun program =>
                    onDay (EpgFilters.forDay epgFilters) (deref heap program))
                 modifiedPrograms, heap)
      else (Some modifiedPrograms, heap)
  end.

(** The [fuse] mixin: the search runs only on a search string that is
    truthy. *)
Definition fuse (heap : list Obj) (items : list nat) (searchString : Js.Val)
    : list nat :=
  if Js.truthy searchString then fuseSearch lib heap items searchString
  else items.

Definition calculateLimit (limit : Js.Val) : Js.Num :=
  if Js.truthy limit
     && Js.lt (Js.Number (Js.to_number limit)) (Js.Number maxResults)
  then Js.to_number limit
  else maxResults.

(** The callback of the [map] of [getMediaItems]. *)
Definition stampStartsOn (item : Obj) : option Obj :=
  if Js.truthy (prop item "startsOn") then
    startsOnTimestamp ← plusDuration lib (startOfWeek module) (prop item "startsOn");
    Some (<["startsOnTimestamp" := Js.DateTime startsOnTimestamp]> item)
  else Some item.

(** [db.get("media").filter(filters).fuse(q).sortBy(sorts)]. *)
Definition baseQuery (filters : gmap string Js.Prim) (sorts : list string)
    (q : Js.Val) (db : Db) : list nat :=
  Lodash.sortBy (property lib) (media db)
    (fuse (media db) (Lodash.filter (media db) filters) q) sorts.

Definition getMediaItems (filters : gmap string Js.Prim) (sorts : list string)
    (maxPage perPage page q : Js.Val) (db : Db) : option MediaItems * Db :=
  let baseQuery := baseQuery filters sorts q db in
  let total := Js.Number (Js.Int (Z.of_nat (length baseQuery))) in
  let currentPage := Lodash.defaultTo page (Js.Number (Js.Int 1)) in
  let currentPerPage := Lodash.defaultTo perPage (Js.Number (Js.Int 20)) in
  let currentMaxPage := Lodash.defaultTo maxPage (Js.Number (Js.Int 100)) in
  if Js.gt currentPage currentMaxPage then
    (Some {| nextPage := Js.Undefined; items := [] |}, db)
  else
    let nextPage :=
      if Js.gt currentMaxPage currentPage
         && Js.gt total (Js.Number (Js.mul currentPage currentPerPage))
      then Js.Number (Js.add (Js.to_number currentPage) (Js.Int 1))
      else Js.Undefined in
    match forEach stampStartsOn baseQuery (media db) with
    | (Some _, stamped) =>
        (Some {| nextPage := nextPage;
                 items :=
                   Lodash.take
                     (Lodash.drop baseQuery
                        (Js.Number
                           (Js.mul
                              (Js.Number (Js.sub currentPage (Js.Number (Js.Int 1))))
                              currentPerPage)))
                     currentPerPage |},
         {| media := stamped; programs := programs db |})
    | (None, stamped) => (None, {| media := stamped; programs := programs db |})
    end.

(** The callback of the [map] of [getPrograms]. *)
Definition placeInWeek (program : Obj) : option Obj :=
  airTimestamp ← plusDuration lib (startOfWeek module) (prop program "airTime");
  Some (<["airTimestamp" := Js.DateTime airTimestamp]> program).

(** [getPrograms]; the result is its member [items], references into
    [programs]. *)
Definition getPrograms (filters : gmap string Js.Prim)
    (epgFilters : EpgFilters.t) (limit : Js.Val) (db : Db)
    : option (list nat) * Db :=
  let selected := Lodash.filter (programs db) filters in
  match forEach placeInWeek selected (programs db) with
  | (None, placed) => (None, {| media := media db; programs := placed |})
  | (Some _, placed) =>
      match epgUtils selected epgFilters placed with
      | (Some found, marked) =>
          (Some (Lodash.take found (Js.Number (calculateLimit limit))),
           {| media := media db; programs := marked |})
      | (None, marked) => (None, {| media := media db; programs := marked |})
      end
  end.

End MockDb.

(** ** The libraries in the zone UTC

    An instance of the interface, for running the engine on concrete
    stores: Luxon in the zone UTC, property access by a plain key, and a
    search that keeps the exact matches. *)
Module Utc.

Definition lowerFirst (s : string) : string :=
  match s with
  | String c rest =>
      let n := nat_of_ascii c in
      String (if (Nat.leb 65 n && Nat.leb n 90)%bool then ascii_of_nat (n + 32) else c) rest
  | EmptyString => EmptyString
  end.

Definition contains (needle : Js.Val) (hay : Js.Val) : bool :=
  match needle, hay with
  | Js.Str n, Js.Str h =>
      match String.index 0 n h with Some _ => true | None => false end
  | _, _ => false
  end.

Definition search (heap : list Obj) (items : list nat) (s : Js.Val) : list nat :=
  List.filter
    (fun ref =>
       existsb (fun key => contains s (prop (deref heap ref) key))
               ["id"; "title"; "summary"])
    items.

Definition day : Z := 86400000.

(** Monday 00:00 of the week of [t]; 1970-01-05 was a Monday. *)
Definition weekStart (t : Z) : Z :=
  t - (t - 4 * day) mod (7 * day).

Definition unit_ms (unit : string) : option Z :=
  if String.eqb unit "weeks" then Some (7 * day)
  else if String.eqb unit "days" then Some day
  else if String.eqb unit "hours" then Some 3600000
  else if String.eqb unit "minutes" then Some 60000
  else if String.eqb unit "seconds" then Some 1000
  else if String.eqb unit "milliseconds" then Some 1
  else None.

Fixpoint duration_ms (props : list (string * Z)) : option Z :=
  match props with
  | [] => Some 0
  | (unit, n) :: rest =>
      ms ← unit_ms unit;
      total ← duration_ms rest;
      Some (n * ms + total)
  end.

(** A number is a count of milliseconds and an object a duration over
    the units of fixed length; Luxon throws on the other values.  An
    instant is a whole number of milliseconds here: the fraction of one
    is dropped, and an infinite duration has no instant. *)
Definition plus (t : Z) (duration : Js.Val) : option Z :=
  match duration with
  | Js.Number (Js.Int ms) => Some (t + ms)
  | Js.Number (Js.Frac m e) => Some (t + Z.quot m (2 ^ Z.pos e))
  | Js.Object props => ms ← duration_ms props; Some (t + ms)
  | _ => None
  end.

(** Luxon skips a unit that is undefined or null and throws on a boolean,
    on the empty string and on what is no number. *)
Definition plusSec (t : Z) (seconds : Js.Val) : option Z :=
  match seconds with
  | Js.Undefined | Js.Null => Some t
  | Js.Bool _ => None
  | _ =>
      match Js.to_number seconds with
      | Js.Int d =>
          if Js.strict_eq seconds (Js.Str EmptyString) then None
          else Some (t + 1000 * d)
      | Js.Frac m e => Some (t + Z.quot (1000 * m) (2 ^ Z.pos e))
      | Js.Inf _ | Js.NaN => None
      end
  end.

(** The day of the year of [t], from the days since 0000-03-01. *)
Definition dayOfYear (t : Z) : Js.Num :=
  let z := t / day + 719468 in
  let era := z / 146097 in
  let doe := z - era * 146097 in
  let yoe := (doe - doe / 1460 + doe / 36524 - doe / 146096) / 365 in
  let doy := doe - (365 * yoe + yoe / 4 - yoe / 100) in
  let year := yoe + era * 400 in
  let leap :=
    (Z.eqb (year mod 4) 0
     && (negb (Z.eqb (year mod 100) 0) || Z.eqb (year mod 400) 0))%bool in
  Js.Int (if Z.ltb doy 306 then doy + 60 + (if leap then 1 else 0) else doy - 305).

Definition library : Library := {|
  camelCase := lowerFirst;
  property := fun key object => prop object key;
  fuseSearch := search;
  startOf_week := weekStart;
  plusDuration := plus;
  plusSeconds := plusSec;
  plusSeconds_number := fun t d => eq_refl;
  ordinal := dayOfYear
|}.

End Utc.

(** ** Sample stores *)

Definition num (z : Z) : Js.Val := Js.Number (Js.Int z).

Definition episode (n : Z) : Obj :=
  {[ "type" := Js.Str "episode"; "episodeNumber" := num n ]}.

Definition threeEpisodes : Db :=
  {| media := [episode 1; episode 2; episode 3]; programs := [] |}.

Definition manyEpisodes : Db :=
  {| media := map (fun n => episode (Z.of_nat n)) (seq 1 101); programs := [] |}.

(** One program that airs on Monday from 01:00 to 02:00. *)
Definition show : Obj :=
  {[ "type" := Js.Str "episode";
     "airTime" := Js.Object [("hours", 1)];
     "durationInSeconds" := num 3600 ]}.

Definition guide : Db := {| media := []; programs := [show] |}.

Definition noFlags : EpgFilters.t :=
  {| EpgFilters.now := Js.Undefined; EpgFilters.upNext := Js.Undefined;
     EpgFilters.justEnded := Js.Undefined; EpgFilters.forDay := Js.Undefined;
     EpgFilters.futureForDay := Js.Undefined |}.

Definition onlyNow : EpgFilters.t :=
  {| EpgFilters.now := Js.Str "true"; EpgFilters.upNext := Js.Undefined;
     EpgFilters.justEnded := Js.Undefined; EpgFilters.forDay := Js.Undefined;
     EpgFilters.futureForDay := Js.Undefined |}.

(** Monday 1970-01-05 00:00 UTC. *)
Definition monday : Z := 4 * Utc.day.

(** The module as a process in the zone UTC loads it at [clock]. *)
Definition loadedAt (clock : Z) : Loaded := load Utc.library clock.

Definition shuffledEpisodes : Db :=
  {| media := [episode 3; episode 1; episode 2]; programs := [] |}.

Definition onlyEpisodes : gmap string Js.Prim := {[ "type" := Js.PStr "episode" ]}.

Definition onlyLive : gmap string Js.Prim := {[ "isLive" := Js.PBool true ]}.

(** A program as [getPrograms] hands it to [epgUtils]: placed at the
    instant [t], with a duration of [d] seconds. *)
Definition placed (t d : Z) : Obj :=
  {[ "airTimestamp" := Js.DateTime t; "durationInSeconds" := num d ]}.

(** Three programs of one minute that end at 60000, 120000 and 180000. *)
Definition threeEnded : list Obj :=
  [placed 0 60; placed 60000 60; placed 120000 60].



Definition onlyJustEnded : EpgFilters.t :=
  {| EpgFilters.now := Js.Undefined; EpgFilters.upNext := Js.Undefined;
     EpgFilters.justEnded := Js.Str "true"; EpgFilters.forDay := Js.Undefined;
     EpgFilters.futureForDay := Js.Undefined |}.


(** Monday at 01:30, while [show] is on the air. *)
Definition duringShow : Z := monday + 5400000.

(** The store after a first query for the programs running now. *)
Definition afterFirstQuery : Db :=
  snd (getPrograms Utc.library (loadedAt duringShow) ∅ onlyNow Js.Undefined guide).

(** ** The specification's side *)

(** The two coercions of an expected value: that of the season number and
    of the episode number becomes a number, and the string true becomes
    the boolean. *)
Definition coerce (key value : string) : Js.Prim :=
  if existsb (String.eqb key) ["bySeasonNumber"; "byEpisodeNumber"]
  then Js.PNumber (Js.string_to_number value)
  else if String.eqb value "true" then Js.PBool true
  else Js.PStr value.

(** The predicate a query string holds on a field: the coerced value of
    the last parameter [by...] that spells the field, if there is one. *)
Fixpoint predicate (lib : Library) (query : list (string * string))
    (field : string) : option Js.Prim :=
  match query with
  | [] => None
  | (key, value) :: rest =>
      match predicate lib rest field with
      | Some expected => Some expected
      | None =>
          if String.prefix "by" key
             && String.eqb (camelCase lib (substring2 key)) field
          then Some (coerce key value)
          else None
      end
  end.

(** A program is live at [instant] when it has started and has not ended:
    its air timestamp is at most the instant, which is at most the air
    timestamp plus the duration, given in seconds. *)
Definition liveAt (instant : Z) (program : Obj) : bool :=
  match prop program "airTimestamp", prop program "durationInSeconds" with
  | Js.DateTime t, Js.Number (Js.Int d) =>
      (Z.leb t instant && Z.leb instant (t + 1000 * d))%bool
  | _, _ => false
  end.

(** A program has ended by [instant] when it started and ended at or
    before it. *)
Definition endedBy (instant : Z) (program : Obj) : bool :=
  match prop program "airTimestamp", prop program "durationInSeconds" with
  | Js.DateTime t, Js.Number (Js.Int d) =>
      (Z.leb t instant && Z.leb (t + 1000 * d) instant)%bool
  | _, _ => false
  end.

(** A program with an air timestamp and a duration in seconds. *)
Definition scheduled (program : Obj) : Prop :=
  exists t d,
    prop program "airTimestamp" = Js.DateTime t
    /\ prop program "durationInSeconds" = Js.Number (Js.Int d).

(** The elements of [l] at the indices from [from], inclusive, to [to],
    exclusive. *)
Definition slice {A : Type} (from to : Z) (l : list A) : list A :=
  skipn (Z.to_nat from) (firstn (Z.to_nat to) l).

(** A caller's parameter: absent, or a number. *)
Definition param (value : option Z) : Js.Val :=
  match value with
  | Some z => Js.Number (Js.Int z)
  | None => Js.Undefined
  end.

(** The value of a member of the argument of a query: undefined when the
    caller leaves it out, else the primitive value the caller gives. *)
Definition argument (value : option Js.Prim) : Js.Val :=
  match value with
  | Some p => Js.of_prim p
  | None => Js.Undefined
  end.

(** Two states of an array that hold the same records up to the
    properties named by [keys]. *)
Definition sameBut (keys : list string) (before after : list Obj) : Prop :=
  length after = length before
  /\ forall ref key, ~ In key keys ->
       deref after ref !! key = deref before ref !! key.

(** A callback that writes the properties [keys] only. *)
Definition writesOnly (keys : list string) (callback : Obj -> option Obj) : Prop :=
  forall object object', callback object = Some object' ->
    forall key, ~ In key keys -> object' !! key = object !! key.

(** A callback that finds its own result unchanged. *)
Definition settles (callback : Obj -> option Obj) : Prop :=
  forall object object', callback object = Some object' ->
    callback object' = Some object'.

(** A running process: the module is loaded at one instant and serves an
    EPG query at a later one.  [getPrograms] reads the constants of the
    loaded module and never the clock, so the instant of the call has no
    part in the result. *)
Definition serveEpg (lib : Library) (loadedAt servedAt : Z)
    (filters : gmap string Js.Prim) (epgFilters : EpgFilters.t)
    (limit : Js.Val) (db : Db) : option (list nat) * Db :=
  getPrograms lib (load lib loadedAt) filters epgFilters limit db.

(** ** The modes of an EPG query and the [/epg] route *)

(** The mode [epgUtils] runs in: that of the first flag that is set, in
    the order in which the function tests them. *)
Inductive Mode : Type :=
| RunningNow
| UpNext
| JustEnded
| ForDay (timestamp : Js.Val)
| Everything.

Definition modeOf (epgFilters : EpgFilters.t) : Mode :=
  if Js.truthy (EpgFilters.now epgFilters) then RunningNow
  else if Js.truthy (EpgFilters.upNext epgFilters) then UpNext
  else if Js.truthy (EpgFilters.justEnded epgFilters) then JustEnded
  else if Js.truthy (EpgFilters.forDay epgFilters)
       then ForDay (EpgFilters.forDay epgFilters)
  else Everything.

(** A program starts at [instant] or later. *)
Definition startsFrom (instant : Z) (program : Obj) : bool :=
  match prop program "airTimestamp" with
  | Js.DateTime t => Z.leb instant t
  | _ => false
  end.

Definition onlyUpNext : EpgFilters.t :=
  {| EpgFilters.now := Js.Undefined; EpgFilters.upNext := Js.Str "true";
     EpgFilters.justEnded := Js.Undefined; EpgFilters.forDay := Js.Undefined;
     EpgFilters.futureForDay := Js.Undefined |}.

Definition everyFlag : EpgFilters.t :=
  {| EpgFilters.now := Js.Str "true"; EpgFilters.upNext := Js.Str "true";
     EpgFilters.justEnded := Js.Str "true"; EpgFilters.forDay := Js.Str "0";
     EpgFilters.futureForDay := Js.Str "0" |}.

(** Three programs around the instant 200000: one that ended, one on the
    air and one to come. *)
Definition aroundNow : list Obj :=
  [placed 0 60; placed 140000 120; placed 300000 60].

Section EpgRoute.

Variable lib : Library.

(** One step of the reduction over [req.query] in the [/epg] handler: the
    string true is made the boolean and no value is made a number. *)
Definition addEpgFilter (result : gmap string Js.Prim) (entry : string * string)
    : gmap string Js.Prim :=
  let '(key, value) := entry in
  if String.prefix "by" key then
    <[camelCase lib (substring2 key) :=
        if String.eqb value "true" then Js.PBool true else Js.PStr value]> result
  else result.

(** The [filters] of the [/epg] handler. *)
Definition epgRouteFilters (query : list (string * string)) : gmap string Js.Prim :=
  fold_left addEpgFilter query ∅.

(** [req.query.name]: the value of a parameter of the query string,
    undefined when the query has none of that name. *)
Definition queryParam (query : list (string * string)) (name : string) : Js.Val :=
  match List.find (fun entry => String.eqb (fst entry) name) query with
  | Some (_, value) => Js.Str value
  | None => Js.Undefined
  end.

(** The [epgFilters] of the [/epg] handler. *)
Definition epgRouteFlags (query : list (string * string)) : EpgFilters.t :=
  {| EpgFilters.now := queryParam query "now";
     EpgFilters.upNext := queryParam query "upNext";
     EpgFilters.justEnded := queryParam query "justEnded";
     EpgFilters.forDay := queryParam query "forDay";
     EpgFilters.futureForDay := queryParam query "futureForDay" |}.

(** The call of [getPrograms] the [/epg] handler makes.  The handler hands
    over the members [timeZoneOffset], [filters], [epgFilters], [maxPage],
    [perPage] and [page], of which [getPrograms] takes [filters] and
    [epgFilters]; its [limit] is undefined. *)
Definition epgRouteQuery (module : Loaded) (query : list (string * string))
    (db : Db) : option (list nat) * Db :=
  getPrograms lib module (epgRouteFilters query) (epgRouteFlags query)
    Js.Undefined db.

End EpgRoute.

(** A guide of 150 programs. *)
Definition longGuide : Db := {| media := []; programs := repeat show 150 |}.

(** ** The order of a sort on one key *)

(** The entry the sort makes of a record of the collection when the key
    reads the integer [k ref] on it. *)
Definition keyed (k : nat -> Z) (collection : list nat) (entry : Lodash.Entry)
    : Prop :=
  fst (fst entry) = [Js.Number (Js.Int (k (snd entry)))]
  /\ collection !! snd (fst entry) = Some (snd entry).

(** The comparer puts the first entry before the second. *)
Definition entryLe (entry other : Lodash.Entry) : Prop :=
  Lodash.compareMultiple entry other <> Gt.

(** Ascending by the key, and in the order of the store between records
    with the same key. *)
Definition byKey (k : nat -> Z) (a b : nat) : Prop :=
  k a < k b \/ (k a = k b /\ (a < b)%nat).

(** A module loaded at the instant 200000. *)
Definition at200000 : Loaded := {| now := 200000; startOfWeek := 0 |}.

(** ** The collections of [mock-db.js] *)

(** [_.filter(collection, predicate)] with a function, as the references
    of the records kept. *)
Definition filterWith (keep : Obj -> bool) (collection : list Obj) : list nat :=
  List.filter (fun ref => keep (deref collection ref)) (seq 0 (length collection)).

(** [item.type === type]. *)
Definition hasType (type : string) (item : Obj) : bool :=
  Js.strict_eq (prop item "type") (Js.Str type).

(** [item.type === "episode" || item.type === "series"]. *)
Definition episodeOrSeries (item : Obj) : bool :=
  hasType "episode" item || hasType "series" item.

(** [item.type === "series" && item.category === category]. *)
Definition seriesOf (category : string) (item : Obj) : bool :=
  hasType "series" item && Js.strict_eq (prop item "category") (Js.Str category).

Section Collections.

(** [_.shuffle], which draws its order from [Math.random]: the order it
    gives a list is taken as given. *)
Variable shuffle : list nat -> list nat.

(** [getCollectionByName]; the result is its member [items], references
    into [media].  The object [collections] holds a chain under each of
    three names and an array under [genres]; the call ends in
    [collections[name].items.value()], which throws on the array, that has
    no method [value], and on every other name, under which [collections]
    holds nothing with a member [items]. *)
Definition getCollectionByName (name : string) (db : Db) : option (list nat) :=
  if String.eqb name "homeFeatured" then
    Some (Lodash.take (shuffle (filterWith episodeOrSeries (media db))) (num 1))
  else if String.eqb name "featuredDrama" then
    Some (Lodash.take (shuffle (filterWith (seriesOf "Drama") (media db))) (num 6))
  else if String.eqb name "featuredAction" then
    Some (Lodash.take (shuffle (filterWith (seriesOf "Action") (media db))) (num 6))
  else if String.eqb name "genres" then None
  else None.

End Collections.

(** A catalog of two series, one of them a drama, an episode and a
    channel. *)
Definition catalog : Db :=
  {| media :=
       [ {[ "type" := Js.Str "series"; "category" := Js.Str "Drama" ]};
         {[ "type" := Js.Str "channel" ]};
         {[ "type" := Js.Str "episode" ]};
         {[ "type" := Js.Str "series"; "category" := Js.Str "Action" ]} ];
     programs := [] |}.

(** The integer the key [episodeNumber] reads on the records of
    [shuffledEpisodes]. *)
Definition shuffledNumber (ref : nat) : Z := nth ref [3; 1; 2] 0.

(** Twenty-five episodes. *)
Definition twentyFive : Db :=
  {| media := map (fun n => episode (Z.of_nat n)) (seq 1 25); programs := [] |}.

(** A program with a season number, as a number. *)
Definition thirdSeason : list Obj :=
  [ {[ "type" := Js.Str "episode"; "seasonNumber" := num 3 ]} ].

(** Three series that start on Tuesday. *)
Definition premieres : Db :=
  {| media :=
       repeat {[ "type" := Js.Str "series";
                 "startsOn" := Js.Object [("days", 1)] ]} 3;
     programs := [] |}.

Definition forDayAbc : EpgFilters.t :=
  {| EpgFilters.now := Js.Undefined; EpgFilters.upNext := Js.Undefined;
     EpgFilters.justEnded := Js.Undefined; EpgFilters.forDay := Js.Str "abc";
     EpgFilters.futureForDay := Js.Undefined |}.

(** ** The collections of a user *)

(** The records at [ref] and [other] have the same [id] for lodash's
    caches: it is one record, or the two values agree as [sameValue] has
    it. *)
Definition sameId (heap : list Obj) (ref other : nat) : bool :=
  Nat.eqb ref other
  || Lodash.sameValue (prop (deref heap ref) "id") (prop (deref heap other) "id").

(** [baseIntersection] of lodash on the array and one other array under
    the iteratee [id]: the array is walked while the result is shorter
    than the shorter of the two arrays, and a record is taken when no
    record taken before has its [id] and a record of the other array has
    it. *)
Fixpoint baseIntersection (heap : list Obj) (others : list nat) (maxLength : nat)
    (array result : list nat) : list nat :=
  match array with
  | [] => result
  | value :: rest =>
      if Nat.ltb (length result) maxLength then
        if existsb (sameId heap value) result
        then baseIntersection heap others maxLength rest result
        else if existsb (sameId heap value) others
        then baseIntersection heap others maxLength rest (result ++ [value])
        else baseIntersection heap others maxLength rest result
      else result
  end.

(** [_.intersectionBy(array, others, "id")]. *)
Definition intersectionById (heap : list Obj) (array others : list nat) : list nat :=
  baseIntersection heap others (Nat.min (length array) (length others)) array [].

Section UserCollections.

Variable shuffle : list nat -> list nat.

(** The favorites of the one user the mock knows: four episodes drawn
    from the store, of which the mock keeps the [id]. *)
Definition myFavorites (db : Db) : list nat :=
  Lodash.take (shuffle (filterWith (hasType "episode") (media db))) (num 4).

(** [getUserCollectionByName]; the result is its member [items],
    references into [media].  Every token names the same user, and
    [collections] holds the one name [myFavorites]: the call throws on
    every other name. *)
Definition getUserCollectionByName (name : string) (userToken : Js.Val)
    (db : Db) : option (list nat) :=
  if String.eqb name "myFavorites" then
    Some (intersectionById (media db) (seq 0 (length (media db))) (myFavorites db))
  else None.

End UserCollections.

(** Six episodes with an [id] each, between two channels. *)
Definition library6 : Db :=
  {| media :=
       {[ "type" := Js.Str "channel"; "id" := Js.Str "c1" ]}
       :: map (fun n => {[ "type" := Js.Str "episode"; "id" := num (Z.of_nat n) ]})
              (seq 1 6)
       ++ [ {[ "type" := Js.Str "channel"; "id" := Js.Str "c2" ]} ];
     programs := [] |}.

(** ** Numbers on concrete inputs *)

(** [Number] on the strings of a query string: literals with a fraction,
    an exponent or a radix prefix, white space, the largest integers and
    what is no literal. *)
Example string_to_number_on_literals :
  map Js.string_to_number
    ["3"; "3.0"; "1e1"; "0x10"; "100.5"; " 12 "; "-.5"; "9007199254740993";
     "1e400"; "-Infinity"; "1e-400"; "abc"; "1,2"; "0x"; "-0x10"; "5."]
  = [Js.Int 3; Js.Int 3; Js.Int 10; Js.Int 16; Js.Frac 201 1; Js.Int 12;
     Js.Frac (-1) 1; Js.Int 9007199254740992; Js.Inf false; Js.Inf true;
     Js.Int 0; Js.NaN; Js.NaN; Js.NaN; Js.NaN; Js.Int 5].
Proof. vm_compute. reflexivity. Qed.

(** Sums and products are rounded as the doubles are: [2 ^ 53 + 1] is
    [2 ^ 53], and 0.7 times 10 is 7. *)
Example arithmetic_rounds_to_doubles :
  Js.add (Js.Int (2 ^ 53)) (Js.Int 1) = Js.Int (2 ^ 53)
  /\ Js.mul (Js.Str "0.7") (Js.Str "10") = Js.Int 7
  /\ Js.sub (Js.Str "1.5") (Js.Number (Js.Int 1)) = Js.Frac 1 1
  /\ Js.gt (Js.Str "100.5") (Js.Number (Js.Int 100)) = true.
Proof. repeat split; vm_compute; reflexivity. Qed.

(** ** Properties of the filter stage *)

Section FilterStage.

Variable lib : Library.

Lemma sameValue_of_prim (objValue : Js.Val) (expected : Js.Prim) :
  Lodash.sameValue objValue (Js.of_prim expected) = true
  <-> objValue = Js.of_prim expected.
Proof.
  destruct expected as [b | [z | m e | negative |] | s];
    destruct objValue as [| | b' | [z' | m' e' | negative' |] | s' | ms | ps];
    simpl; split; intros H; try discriminate; try reflexivity.
  - apply Bool.eqb_prop in H. congruence.
  - inversion H. apply Bool.eqb_reflx.
  - apply Z.eqb_eq in H. congruence.
  - inversion H. apply Z.eqb_refl.
  - apply andb_true_iff in H. destruct H as [Hm He].
    apply Z.eqb_eq in Hm. apply Pos.eqb_eq in He. congruence.
  - inversion H. rewrite Z.eqb_refl, Pos.eqb_refl. reflexivity.
  - apply Bool.eqb_prop in H. congruence.
  - inversion H. apply Bool.eqb_reflx.
  - apply String.eqb_eq in H. congruence.
  - inversion H. apply String.eqb_refl.
Qed.

Lemma matches_spec (source : gmap string Js.Prim) (object : Obj) :
  Lodash.matches source object = true
  <-> forall field expected,
        source !! field = Some expected ->
        object !! field = Some (Js.of_prim expected).
Proof.
  unfold Lodash.matches. rewrite forallb_forall. split.
  - intros H field expected Hs.
    specialize (H (field, expected)). simpl in H.
    assert (Hin : In (field, expected) (map_to_list source)).
    { apply list_elem_of_In, elem_of_map_to_list. exact Hs. }
    specialize (H Hin).
    destruct (object !! field) as [v |]; [| discriminate].
    apply sameValue_of_prim in H. congruence.
  - intros H [field expected] Hin.
    apply list_elem_of_In, elem_of_map_to_list in Hin.
    rewrite (H _ _ Hin). apply sameValue_of_prim. reflexivity.
Qed.

Lemma filter_In (collection : list Obj) (source : gmap string Js.Prim) (ref : nat) :
  In ref (Lodash.filter collection source)
  <-> exists record, collection !! ref = Some record
                     /\ Lodash.matches source record = true.
Proof.
  unfold Lodash.filter. rewrite List.filter_In, in_seq. unfold deref. split.
  - intros [[_ Hlt] Hm]. simpl in Hlt.
    destruct (lookup_lt_is_Some_2 collection ref Hlt) as [record Hr].
    rewrite Hr in Hm. eauto.
  - intros (record & Hr & Hm). rewrite Hr. split; [| exact Hm].
    split; [lia |]. simpl. apply lookup_lt_is_Some_1. eauto.
Qed.

Lemma fold_addFilter_lookup (query : list (string * string))
    (result : gmap string Js.Prim) (field : string) :
  fold_left (addFilter lib) query result !! field
  = match predicate lib query field with
    | Some expected => Some expected
    | None => result !! field
    end.
Proof.
  revert result. induction query as [| [key value] rest IH]; intros result; simpl.
  - reflexivity.
  - rewrite IH. destruct (predicate lib rest field) as [expected |]; [reflexivity |].
    destruct (String.prefix "by" key) eqn:Hby; simpl; [| reflexivity].
    destruct (String.eqb (camelCase lib (substring2 key)) field) eqn:Hf.
    + apply String.eqb_eq in Hf. subst field. rewrite lookup_insert_eq.
      unfold coerce. simpl.
      destruct (String.eqb key "bySeasonNumber"), (String.eqb key "byEpisodeNumber"),
        (String.eqb value "true"); reflexivity.
    + apply String.eqb_neq in Hf. rewrite lookup_insert_ne by exact Hf. reflexivity.
Qed.

Lemma filters_lookup (query : list (string * string)) (field : string) :
  filters lib query !! field = predicate lib query field.
Proof.
  unfold filters. rewrite fold_addFilter_lookup.
  destruct (predicate lib query field); [reflexivity | apply lookup_empty].
Qed.

(** The filters of the documented query for the episodes of season 3. *)
Example filters_of_a_documented_query :
  map_to_list
    (filters Utc.library
       [("byType", "episode"); ("bySeasonNumber", "3"); ("q", "E2S1");
        ("byIsLive", "true")])
  = [("seasonNumber", Js.PNumber (Js.Int 3)); ("isLive", Js.PBool true);
     ("type", Js.PStr "episode")].
Proof. vm_compute. reflexivity. Qed.

(** C3. The filter stage keeps a record exactly when, for every field on
    which the query holds a predicate, the record has the field and its
    value is the expected one after the coercions, which touch the
    expected value only: that of [bySeasonNumber] and of
    [byEpisodeNumber] is made a number and the string true the boolean.
    A query without predicates keeps every record.  The query is an
    object: its names are distinct. *)
Theorem filter_keeps_matching_records (query : list (string * string))
    (collection : list Obj) (ref : nat) :
  List.NoDup (map fst query) ->
  In ref (Lodash.filter collection (filters lib query))
  <-> exists record,
        collection !! ref = Some record
        /\ forall field expected,
             predicate lib query field = Some expected ->
             record !! field = Some (Js.of_prim expected).
Proof.
  intros _.
  rewrite filter_In. split; intros (record & Hr & H); exists record; split; trivial.
  - intros field expected Hp. apply (proj1 (matches_spec _ _) H).
    rewrite filters_lookup. exact Hp.
  - apply matches_spec. intros field expected Hs.
    apply H. rewrite <- filters_lookup. exact Hs.
Qed.

End FilterStage.

(** ** Writes through references *)

Section Writes.

Lemma deref_insert (heap : list Obj) (ref other : nat) (object : Obj) :
  deref (<[ref := object]> heap) other
  = if decide (ref = other /\ (ref < length heap)%nat) then object
    else deref heap other.
Proof.
  unfold deref. destruct (decide (ref = other)) as [-> | Hne].
  - destruct (decide (other < length heap)%nat) as [Hlt | Hge].
    + rewrite list_lookup_insert_eq by exact Hlt.
      destruct (decide _) as [_ | Hn]; [reflexivity | tauto].
    + rewrite list_insert_ge by lia.
      destruct (decide _) as [[_ Hlt] | _]; [lia | reflexivity].
  - rewrite list_lookup_insert_ne by exact Hne.
    destruct (decide _) as [[Heq _] | _]; [contradiction | reflexivity].
Qed.

Lemma deref_empty_out_of_range (heap : list Obj) (ref : nat) :
  (length heap <= ref)%nat -> deref heap ref = ∅.
Proof. intros H. unfold deref. rewrite lookup_ge_None_2 by exact H. reflexivity. Qed.

Lemma sameBut_refl (keys : list string) (heap : list Obj) : sameBut keys heap heap.
Proof. split; [reflexivity | intros; reflexivity]. Qed.

Lemma sameBut_trans (keys : list string) (h1 h2 h3 : list Obj) :
  sameBut keys h1 h2 -> sameBut keys h2 h3 -> sameBut keys h1 h3.
Proof.
  intros [L1 K1] [L2 K2]. split; [congruence |].
  intros ref key Hk. rewrite K2, K1 by exact Hk. reflexivity.
Qed.

Lemma sameBut_weaken (keys keys' : list string) (h1 h2 : list Obj) :
  incl keys keys' -> sameBut keys h1 h2 -> sameBut keys' h1 h2.
Proof.
  intros Hi [L K]. split; [exact L |].
  intros ref key Hk. apply K. intros Hin. apply Hk, Hi, Hin.
Qed.

Lemma forEach_sameBut (keys : list string) (callback : Obj -> option Obj)
    (collection : list nat) (heap : list Obj) :
  writesOnly keys callback ->
  sameBut keys heap (snd (forEach callback collection heap)).
Proof.
  intros Hw. revert heap.
  induction collection as [| ref rest IH]; intros heap; simpl.
  - apply sameBut_refl.
  - destruct (callback (deref heap ref)) as [object |] eqn:Hc; simpl.
    + eapply sameBut_trans; [| apply IH]. split.
      * apply length_insert.
      * intros other key Hk. rewrite deref_insert.
        destruct (decide _) as [[-> _] | _]; [| reflexivity].
        apply (Hw _ _ Hc). exact Hk.
    + apply sameBut_refl.
Qed.

(** When the callback throws on none of the records, every record of the
    collection holds the callback's result afterwards, and the others are
    as they were. *)
Lemma forEach_ok (callback : Obj -> option Obj) (collection : list nat)
    (heap : list Obj) :
  settles callback ->
  (forall ref, In ref collection -> is_Some (callback (deref heap ref))) ->
  exists heap',
    forEach callback collection heap = (Some tt, heap')
    /\ length heap' = length heap
    /\ (forall ref, In ref collection -> (ref < length heap)%nat ->
          callback (deref heap ref) = Some (deref heap' ref))
    /\ (forall ref, ~ In ref collection -> deref heap' ref = deref heap ref).
Proof.
  intros Hs. revert heap.
  induction collection as [| ref rest IH]; intros heap Hc; simpl.
  - exists heap. repeat split; auto. intros ref [].
  - destruct (Hc ref (or_introl eq_refl)) as [object Ho]. rewrite Ho.
    destruct (IH (<[ref := object]> heap)) as (heap' & Hrun & Hlen & Hin & Hout).
    { intros other Hother. rewrite deref_insert.
      destruct (decide _) as [_ | _].
      - rewrite (Hs _ _ Ho). eauto.
      - apply Hc. right. exact Hother. }
    rewrite length_insert in Hlen.
    exists heap'. split; [exact Hrun |]. split; [exact Hlen |]. split.
    + intros other [<- | Hother] Hlt.
      * destruct (in_dec Nat.eq_dec ref rest) as [Hr | Hr].
        -- specialize (Hin ref Hr). rewrite length_insert in Hin.
           specialize (Hin Hlt). rewrite deref_insert in Hin.
           destruct (decide _) as [_ | Hn]; [| exfalso; apply Hn; auto].
           rewrite (Hs _ _ Ho) in Hin. congruence.
        -- rewrite (Hout ref Hr), deref_insert.
           destruct (decide _) as [_ | Hn]; [exact Ho | exfalso; apply Hn; auto].
      * specialize (Hin other Hother). rewrite length_insert in Hin.
        specialize (Hin Hlt). rewrite deref_insert in Hin.
        destruct (decide _) as [[<- _] | _]; [| exact Hin].
        rewrite (Hs _ _ Ho) in Hin. congruence.
    + intros other Hn. rewrite Hout by (intros H; apply Hn; right; exact H).
      rewrite deref_insert. destruct (decide _) as [[<- _] | _]; [| reflexivity].
      exfalso. apply Hn. left. reflexivity.
Qed.

Lemma filterM_total {A : Type} (predicate : A -> option bool) (keep : A -> bool)
    (array : list A) :
  (forall x, In x array -> predicate x = Some (keep x)) ->
  filterM predicate array = Some (List.filter keep array).
Proof.
  induction array as [| x rest IH]; intros H; simpl; [reflexivity |].
  rewrite (H x (or_introl eq_refl)). simpl.
  rewrite IH by (intros y Hy; apply H; right; exact Hy). simpl.
  destruct (keep x); reflexivity.
Qed.

End Writes.

(** ** Properties of the EPG classifier *)

Section Epg.

Variable lib : Library.
Variable module : Loaded.

Lemma le_DateTime (a b : Z) : Js.le (Js.DateTime a) (Js.DateTime b) = Z.leb a b.
Proof. unfold Js.le, Z.leb. simpl. destruct (a ?= b)%Z; reflexivity. Qed.

Lemma ge_DateTime (a b : Z) : Js.ge (Js.DateTime a) (Js.DateTime b) = Z.leb b a.
Proof.
  unfold Js.ge, Z.leb. simpl. rewrite (Z.compare_antisym a b).
  destruct (a ?= b)%Z; reflexivity.
Qed.

Lemma prop_insert_ne (object : Obj) (key other : string) (value : Js.Val) :
  key <> other -> prop (<[key := value]> object) other = prop object other.
Proof. intros H. unfold prop. rewrite lookup_insert_ne by exact H. reflexivity. Qed.

Lemma prop_insert_eq (object : Obj) (key : string) (value : Js.Val) :
  prop (<[key := value]> object) key = value.
Proof. unfold prop. rewrite lookup_insert_eq. reflexivity. Qed.

Lemma isAiring_scheduled (program : Obj) :
  scheduled program ->
  isAiring lib module program = Some (liveAt (now module) program).
Proof.
  intros (t & d & Ht & Hd). unfold isAiring, endOf, liveAt. rewrite Ht, Hd.
  rewrite le_DateTime, plusSeconds_number. simpl. rewrite le_DateTime.
  destruct (Z.leb t (now module)); reflexivity.
Qed.

Lemma hasEnded_scheduled (program : Obj) :
  scheduled program ->
  hasEnded lib module program = Some (endedBy (now module) program).
Proof.
  intros (t & d & Ht & Hd). unfold hasEnded, endOf, endedBy. rewrite Ht, Hd.
  rewrite le_DateTime, plusSeconds_number. simpl. rewrite ge_DateTime.
  destruct (Z.leb t (now module)); reflexivity.
Qed.

Lemma markLive_writesOnly : writesOnly ["isLive"] (markLive lib module).
Proof.
  intros object object' H key Hk. unfold markLive in H.
  destruct (isAiring lib module object) as [[|] |]; simpl in H; inversion H; subst.
  - apply lookup_insert_ne. intros <-. apply Hk. left. reflexivity.
  - reflexivity.
Qed.

Lemma isAiring_insert_isLive (object : Obj) (value : Js.Val) :
  isAiring lib module (<["isLive" := value]> object) = isAiring lib module object.
Proof.
  unfold isAiring, endOf. rewrite !prop_insert_ne by discriminate. reflexivity.
Qed.

Lemma markLive_settles : settles (markLive lib module).
Proof.
  intros object object' H. unfold markLive in *.
  destruct (isAiring lib module object) as [[|] |] eqn:Ha; simpl in H; inversion H; subst.
  - rewrite isAiring_insert_isLive, Ha. simpl. rewrite insert_insert_eq. reflexivity.
  - rewrite Ha. reflexivity.
Qed.

Lemma scheduled_in_range (heap : list Obj) (ref : nat) :
  scheduled (deref heap ref) -> (ref < length heap)%nat.
Proof.
  intros (t & d & Ht & _). destruct (Nat.lt_ge_cases ref (length heap)) as [H | H]; [exact H |].
  rewrite deref_empty_out_of_range in Ht by exact H. discriminate.
Qed.

(** The marking pass on scheduled programs: it does not throw, and each
    program is left as [markLive] makes it. *)
Lemma marking_scheduled (programs : list nat) (heap : list Obj) :
  (forall ref, In ref programs -> scheduled (deref heap ref)) ->
  exists marked,
    forEach (markLive lib module) programs heap = (Some tt, marked)
    /\ forall ref, In ref programs ->
         deref marked ref
         = if liveAt (now module) (deref heap ref)
           then <["isLive" := Js.Bool true]> (deref heap ref)
           else deref heap ref.
Proof.
  intros Hs.
  destruct (forEach_ok (markLive lib module) programs heap markLive_settles)
    as (marked & Hrun & _ & Hin & _).
  { intros ref Hr. unfold markLive. rewrite (isAiring_scheduled _ (Hs ref Hr)).
    simpl. eauto. }
  exists marked. split; [exact Hrun |]. intros ref Hr.
  specialize (Hin ref Hr (scheduled_in_range _ _ (Hs ref Hr))).
  unfold markLive in Hin. rewrite (isAiring_scheduled _ (Hs ref Hr)) in Hin.
  simpl in Hin. injection Hin as Heq. rewrite <- Heq. reflexivity.
Qed.


Lemma endedBy_window (instant t d : Z) (program : Obj) :
  prop program "airTimestamp" = Js.DateTime t ->
  prop program "durationInSeconds" = Js.Number (Js.Int d) ->
  endedBy instant program = true <-> t <= instant /\ t + 1000 * d <= instant.
Proof.
  intros Ht Hd. unfold endedBy. rewrite Ht, Hd.
  rewrite andb_true_iff, !Z.leb_le. reflexivity.
Qed.

Lemma endedBy_marked (programs : list nat) (heap marked : list Obj) (ref : nat) :
  In ref programs ->
  deref marked ref
  = (if liveAt (now module) (deref heap ref)
     then <["isLive" := Js.Bool true]> (deref heap ref)
     else deref heap ref) ->
  scheduled (deref heap ref) ->
  scheduled (deref marked ref)
  /\ endedBy (now module) (deref marked ref) = endedBy (now module) (deref heap ref).
Proof.
  intros _ -> Hs. destruct (liveAt (now module) (deref heap ref)).
  - split.
    + destruct Hs as (t & d & Ht & Hd). exists t, d.
      rewrite !prop_insert_ne by discriminate. auto.
    + unfold endedBy. rewrite !prop_insert_ne by discriminate. reflexivity.
  - auto.
Qed.


(** C7. Under the mode [justEnded] the result is made of exactly the
    programs that started and ended at or before [now], in the reverse of
    the order of the input; so three such programs given in the order of
    their ends come out last-ended first. *)
Theorem epgUtils_justEnded_reverses_input (programs : list nat)
    (epgFilters : EpgFilters.t) (heap : list Obj) :
  (forall ref, In ref programs -> scheduled (deref heap ref)) ->
  Js.truthy (EpgFilters.now epgFilters) = false ->
  Js.truthy (EpgFilters.upNext epgFilters) = false ->
  Js.truthy (EpgFilters.justEnded epgFilters) = true ->
  exists marked,
    epgUtils lib module programs epgFilters heap
    = (Some (rev (List.filter (fun ref => endedBy (now module) (deref heap ref))
                              programs)),
       marked)
    /\ (forall ref t d, In ref programs ->
          prop (deref heap ref) "airTimestamp" = Js.DateTime t ->
          prop (deref heap ref) "durationInSeconds" = Js.Number (Js.Int d) ->
          (endedBy (now module) (deref heap ref) = true
           <-> t <= now module /\ t + 1000 * d <= now module)).
Proof.
  intros Hs Hnow Hnext Hended.
  destruct (marking_scheduled programs heap Hs) as (marked & Hrun & Hm).
  exists marked. split.
  - unfold epgUtils. rewrite Hrun, Hnow, Hnext, Hended.
    rewrite (filterM_total _ (fun ref => endedBy (now module) (deref heap ref))).
    + reflexivity.
    + intros ref Hr.
      destruct (endedBy_marked programs heap marked ref Hr (Hm ref Hr) (Hs ref Hr))
        as [Hsch Heq].
      rewrite hasEnded_scheduled by exact Hsch. rewrite Heq. reflexivity.
  - intros ref t d _ Ht Hd. apply endedBy_window; assumption.
Qed.

End Epg.

(** ** Properties of the sort stage *)

Section SortStage.

Lemma indexed_cons (criteria : list Js.Val) (k : nat) (ref : nat) (rest : list nat) :
  imap (fun index r => (criteria, (k + index)%nat, r)) (ref :: rest)
  = ((criteria, k, ref) : Lodash.Entry)
      :: imap (fun index r => (criteria, (S k + index)%nat, r)) rest.
Proof.
  simpl. f_equal.
  - rewrite Nat.add_0_r. reflexivity.
  - apply imap_ext. intros index r _. simpl. rewrite Nat.add_succ_r. reflexivity.
Qed.

(** Entries with equal criteria, numbered in their order, are sorted. *)
Lemma baseSortBy_indexed (criteria : list Js.Val) (collection : list nat) (k : nat) :
  Lodash.compareCriteria criteria criteria = Eq ->
  Lodash.baseSortBy Lodash.compareMultiple
    (imap (fun index r => (criteria, (k + index)%nat, r)) collection)
  = imap (fun index r => (criteria, (k + index)%nat, r)) collection.
Proof.
  intros Hc. revert k. induction collection as [| ref rest IH]; intros k.
  - reflexivity.
  - rewrite indexed_cons. unfold Lodash.baseSortBy in *. cbn [foldr].
    rewrite IH. destruct rest as [| ref' rest']; [reflexivity |].
    rewrite indexed_cons. cbn [Lodash.insert]. unfold Lodash.compareMultiple.
    cbn [fst snd]. rewrite Hc.
    rewrite (proj2 (Nat.compare_lt_iff k (S k))) by lia. reflexivity.
Qed.

Lemma snd_indexed (criteria : list Js.Val) (collection : list nat) (k : nat) :
  map snd (imap (fun index r => ((criteria, (k + index)%nat, r) : Lodash.Entry))
                collection)
  = collection.
Proof.
  revert k. induction collection as [| ref rest IH]; intros k.
  - reflexivity.
  - rewrite indexed_cons. cbn [map snd]. f_equal. apply IH.
Qed.

(** Sorting with no key returns the collection as it is. *)
Lemma sortBy_nil (access : string -> Obj -> Js.Val) (heap : list Obj)
    (collection : list nat) :
  Lodash.sortBy access heap collection [] = collection.
Proof.
  unfold Lodash.sortBy.
  rewrite (imap_ext _ (fun index r => ([Js.Object []], (0 + index)%nat, r))) by reflexivity.
  rewrite baseSortBy_indexed by reflexivity. apply snd_indexed.
Qed.

End SortStage.

(** ** Properties of the paginator and of the whole query *)

Section Queries.

Variable lib : Library.
Variable module : Loaded.

Lemma defaultTo_param (value : option Z) (d : Z) :
  Lodash.defaultTo (param value) (Js.Number (Js.Int d))
  = Js.Number (Js.Int (default d value)).
Proof. destruct value; reflexivity. Qed.

Lemma gt_num (a b : Z) :
  Js.gt (Js.Number (Js.Int a)) (Js.Number (Js.Int b)) = Z.gtb a b.
Proof. unfold Js.gt, Z.gtb. simpl. destruct (a ?= b)%Z; reflexivity. Qed.

Lemma count_num (z : Z) : Lodash.count (Js.Number (Js.Int z)) = Z.to_nat z.
Proof. reflexivity. Qed.

Lemma stampStartsOn_writesOnly :
  writesOnly ["startsOnTimestamp"] (stampStartsOn lib module).
Proof.
  intros object object' H key Hk. unfold stampStartsOn in H.
  destruct (Js.truthy (prop object "startsOn")).
  - destruct (plusDuration lib (startOfWeek module) (prop object "startsOn"));
      simpl in H; inversion H; subst.
    apply lookup_insert_ne. intros <-. apply Hk. left. reflexivity.
  - inversion H. reflexivity.
Qed.

Lemma stampStartsOn_settles : settles (stampStartsOn lib module).
Proof.
  intros object object' H. unfold stampStartsOn in *.
  destruct (Js.truthy (prop object "startsOn")) eqn:Ht.
  - destruct (plusDuration lib (startOfWeek module) (prop object "startsOn")) eqn:Hp;
      simpl in H; inversion H; subst.
    rewrite prop_insert_ne by discriminate. rewrite Ht, Hp. simpl.
    rewrite insert_insert_eq. reflexivity.
  - inversion H. subst. rewrite Ht. reflexivity.
Qed.

Lemma placeInWeek_writesOnly :
  writesOnly ["airTimestamp"] (placeInWeek lib module).
Proof.
  intros object object' H key Hk. unfold placeInWeek in H.
  destruct (plusDuration lib (startOfWeek module) (prop object "airTime"));
    simpl in H; inversion H; subst.
  apply lookup_insert_ne. intros <-. apply Hk. left. reflexivity.
Qed.

Lemma epgUtils_sameBut (programs : list nat) (epgFilters : EpgFilters.t)
    (heap : list Obj) :
  sameBut ["isLive"] heap (snd (epgUtils lib module programs epgFilters heap)).
Proof.
  pose proof (forEach_sameBut ["isLive"] _ programs heap (markLive_writesOnly lib module)) as H.
  unfold epgUtils. destruct (forEach _ programs heap) as [[u |] marked]; simpl in *.
  - repeat (destruct (Js.truthy _); [exact H |]). exact H.
  - exact H.
Qed.

Lemma slice_page (A : Type) (records : list A) (p pp : Z) :
  1 <= p ->
  firstn (Z.to_nat pp) (skipn (Z.to_nat ((p - 1) * pp)) records)
  = slice ((p - 1) * pp) (p * pp) records.
Proof.
  intros Hp. unfold slice. destruct (Z.le_gt_cases 0 pp) as [Hpp | Hpp].
  - rewrite firstn_skipn_comm. f_equal. f_equal. nia.
  - replace (Z.to_nat pp) with 0%nat by lia.
    replace (Z.to_nat (p * pp)) with 0%nat by nia.
    simpl. rewrite skipn_nil. reflexivity.
Qed.

(** The integers up to [2 ^ 53] are doubles. *)
Lemma of_Z_small (z : Z) : Z.abs z <= 2 ^ 53 -> Js.of_Z z = Js.Int z.
Proof. intros H. unfold Js.of_Z. apply Z.leb_le in H. rewrite H. reflexivity. Qed.

(** On numbers the paginator does what its contract says: for a page of
    at least 1, nothing beyond the last page, else the slice of the page
    and a next page, the page plus 1 as a double, when the last page is
    further and records are left. *)
Lemma getMediaItems_on_numbers (filters : gmap string Js.Prim) (sorts : list string)
    (q : Js.Val) (db : Db) (page perPage maxPage : option Z) :
  let p := default 1 page in
  let pp := default 20 perPage in
  let mp := default 100 maxPage in
  let records := baseQuery lib filters sorts q db in
  1 <= p ->
  (forall ref, In ref records ->
     is_Some (stampStartsOn lib module (deref (media db) ref))) ->
  fst (getMediaItems lib module filters sorts
         (param maxPage) (param perPage) (param page) q db)
  = Some (if Z.gtb p mp then {| nextPage := Js.Undefined; items := [] |}
          else {| nextPage :=
                    if (Z.ltb p mp && Z.ltb (p * pp) (Z.of_nat (length records)))%bool
                    then Js.Number (Js.of_Z (p + 1)) else Js.Undefined;
                  items := slice ((p - 1) * pp) (p * pp) records |}).
Proof.
  intros p pp mp records Hp Hstamp. unfold getMediaItems, num. cbv zeta.
  fold records. rewrite !defaultTo_param. fold p pp mp.
  rewrite gt_num. destruct (Z.gtb p mp); [reflexivity |].
  destruct (forEach_ok _ records (media db) stampStartsOn_settles Hstamp)
    as (stamped & Hrun & _).
  rewrite Hrun. cbn [fst]. f_equal. f_equal.
  - change (Js.mul (Js.Number (Js.Int p)) (Js.Number (Js.Int pp)))
      with (Js.Int (p * pp)).
    rewrite !gt_num, !Z.gtb_ltb. reflexivity.
  - unfold Lodash.take, Lodash.drop.
    change (Js.mul (Js.Number (Js.sub (Js.Number (Js.Int p)) (Js.Number (Js.Int 1))))
                   (Js.Number (Js.Int pp)))
      with (Js.Int ((p - 1) * pp)).
    rewrite !count_num. apply slice_page. exact Hp.
Qed.

(** C10. Filtering, then searching with the empty query, then sorting
    with no key, then taking page 1 with as many records per page as the
    filter kept, returns exactly the records the filter kept, in their
    order in the store.  The records are those on which the stamp of a
    start does not throw. *)
Theorem filter_search_sort_paginate_round_trip (filters : gmap string Js.Prim)
    (q : Js.Val) (db : Db) :
  let filtered := Lodash.filter (media db) filters in
  Js.truthy q = false ->
  (forall ref, In ref filtered ->
     is_Some (stampStartsOn lib module (deref (media db) ref))) ->
  fst (getMediaItems lib module filters [] Js.Undefined
         (num (Z.of_nat (length filtered))) (num 1) q db)
  = Some {| nextPage := Js.Undefined; items := filtered |}.
Proof.
  intros filtered Hq Hstamp.
  assert (Hbase : baseQuery lib filters [] q db = filtered).
  { unfold baseQuery, fuse. rewrite Hq. apply sortBy_nil. }
  pose proof (getMediaItems_on_numbers filters [] q db
                (Some 1) (Some (Z.of_nat (length filtered))) None) as H.
  cbv zeta in H. rewrite Hbase in H. simpl default in H.
  change (param (Some 1)) with (num 1) in H.
  change (param (Some (Z.of_nat (length filtered))))
    with (num (Z.of_nat (length filtered))) in H.
  change (param None) with Js.Undefined in H.
  rewrite H by (lia || exact Hstamp).
  change (Z.gtb 1 100) with false. cbv iota.
  rewrite !Z.mul_1_l, Z.ltb_irrefl, andb_false_r. f_equal. f_equal.
  unfold slice. rewrite Nat2Z.id. simpl. apply firstn_all.
Qed.

(** C9, as the code has it.  A query adds no record to the store, removes
    none and moves none, and it writes nothing into a stored record but
    the derived properties: [getMediaItems] leaves the programs alone and
    writes nothing into a media record but [startsOnTimestamp], and
    [getPrograms] leaves the media alone and writes nothing into a program
    but [airTimestamp] and [isLive]. *)
Theorem queries_write_derived_properties_only (filters : gmap string Js.Prim)
    (sorts : list string) (maxPage perPage page q : Js.Val)
    (epgFilters : EpgFilters.t) (limit : Js.Val) (db : Db) :
  (let after :=
     snd (getMediaItems lib module filters sorts maxPage perPage page q db) in
   programs after = programs db
   /\ sameBut ["startsOnTimestamp"] (media db) (media after))
  /\ (let after := snd (getPrograms lib module filters epgFilters limit db) in
      media after = media db
      /\ sameBut ["airTimestamp"; "isLive"] (programs db) (programs after)).
Proof.
  split; cbv zeta.
  - unfold getMediaItems. cbv zeta.
    destruct (Js.gt _ _).
    + split; [reflexivity | apply sameBut_refl].
    + pose proof (forEach_sameBut ["startsOnTimestamp"] _
                    (baseQuery lib filters sorts q db) (media db)
                    stampStartsOn_writesOnly) as H.
      destruct (forEach _ _ (media db)) as [[u |] stamped]; simpl in *; auto.
  - unfold getPrograms. cbv zeta.
    pose proof (forEach_sameBut ["airTimestamp"] _
                  (Lodash.filter (programs db) filters) (programs db)
                  placeInWeek_writesOnly) as Hplace.
    destruct (forEach _ _ (programs db)) as [[u |] placed]; simpl in Hplace.
    + pose proof (epgUtils_sameBut (Lodash.filter (programs db) filters)
                    epgFilters placed) as Hmark.
      assert (Hboth : sameBut ["airTimestamp"; "isLive"] (programs db)
                        (snd (epgUtils lib module
                                (Lodash.filter (programs db) filters)
                                epgFilters placed))).
      { eapply sameBut_trans.
        - eapply sameBut_weaken; [| exact Hplace]. intros k [<- | []]. left. reflexivity.
        - eapply sameBut_weaken; [| exact Hmark]. intros k [<- | []]. right. left. reflexivity. }
      destruct (epgUtils _ _ _ _ placed) as [[found |] marked]; simpl in *; auto.
    + simpl. split; [reflexivity |].
      eapply sameBut_weaken; [| exact Hplace]. intros k [<- | []]. left. reflexivity.
Qed.

End Queries.

(** ** The engine on concrete stores *)

(** C1, where the code departs from it.  The route hands the parameters
    over as the strings of the query string.  On page 2 of at most 10,
    with one record per page and three records, the contract gives the
    second record and the next page 3, and so does the code on numbers;
    on the strings the code compares the page with the last page as
    strings, finds 2 beyond 10 and returns nothing. *)
Lemma getMediaItems_compares_pages_as_strings :
  fst (getMediaItems Utc.library (loadedAt monday) ∅ []
         (Js.Str "10") (Js.Str "1") (Js.Str "2") Js.Undefined threeEpisodes)
  = Some {| nextPage := Js.Undefined; items := [] |}
  /\ fst (getMediaItems Utc.library (loadedAt monday) ∅ []
            (num 10) (num 1) (num 2) Js.Undefined threeEpisodes)
     = Some {| nextPage := num 3; items := [1%nat] |}.
Proof. split; vm_compute; reflexivity. Qed.

(** C2, where the code departs from it.  The module reads the clock once,
    when it is loaded.  A process loaded on Monday at 00:00 and asked at
    01:30 for the programs running now does not find the program that
    airs from 01:00 to 02:00, which is live at 01:30; a module loaded at
    01:30 finds it. *)
Lemma now_is_read_when_the_module_loads :
  fst (serveEpg Utc.library monday duringShow ∅ onlyNow Js.Undefined guide)
  = Some []
  /\ liveAt duringShow
       (deref (programs (snd (serveEpg Utc.library monday duringShow ∅ onlyNow
                                Js.Undefined guide))) 0)
     = true
  /\ fst (serveEpg Utc.library duringShow duringShow ∅ onlyNow Js.Undefined guide)
     = Some [0%nat].
Proof. repeat split; vm_compute; reflexivity. Qed.

(** C5, where the code departs from it.  A key with the suffix for the
    descending order names no property, so every record has the same
    criterion and the records stay as they were: the episodes 3, 1, 2
    sorted by [episodeNumber:desc] come out as 3, 1, 2 and not as 3, 2, 1.
    Without the suffix they come out ascending. *)
Lemma sortBy_ignores_the_descending_marker :
  option_map items
    (fst (getMediaItems Utc.library (loadedAt monday) ∅
            (sorts (Some "episodeNumber:desc"))
            Js.Undefined Js.Undefined Js.Undefined Js.Undefined shuffledEpisodes))
  = Some [0%nat; 1%nat; 2%nat]
  /\ option_map items
       (fst (getMediaItems Utc.library (loadedAt monday) ∅
               (sorts (Some "episodeNumber"))
               Js.Undefined Js.Undefined Js.Undefined Js.Undefined shuffledEpisodes))
     = Some [1%nat; 2%nat; 0%nat].
Proof. split; vm_compute; reflexivity. Qed.

(** C6, where the code departs from it.  [getMediaItems] takes as many
    records as [perPage] says: asked for 101 per page over 101 records it
    returns 101 items.  The bound of 100 is applied by [calculateLimit],
    which only [getPrograms] calls. *)
Lemma getMediaItems_does_not_clamp_perPage :
  option_map (fun result => length (items result))
    (fst (getMediaItems Utc.library (loadedAt monday) ∅ []
            Js.Undefined (Js.Str "101") Js.Undefined Js.Undefined manyEpisodes))
  = Some 101%nat
  /\ calculateLimit (Js.Str "101") = Js.Int 100.
Proof. split; vm_compute; reflexivity. Qed.

(** C8, where the code departs from it.  The call does not throw on a
    [perPage] or a [page] that is no number, but neither falls back to the
    default.  Over 101 records, [perPage=abc] returns no item where the
    call without [perPage] returns 20, and [page=abc] returns the first 20
    without a next page where the call without [page] announces page 2. *)
Lemma getMediaItems_keeps_non_numeric_parameters :
  option_map (fun result => (nextPage result, length (items result)))
    (fst (getMediaItems Utc.library (loadedAt monday) ∅ []
            Js.Undefined Js.Undefined Js.Undefined Js.Undefined manyEpisodes))
  = Some (num 2, 20%nat)
  /\ option_map (fun result => (nextPage result, length (items result)))
       (fst (getMediaItems Utc.library (loadedAt monday) ∅ []
               Js.Undefined (Js.Str "abc") Js.Undefined Js.Undefined manyEpisodes))
     = Some (Js.Undefined, 0%nat)
  /\ option_map (fun result => (nextPage result, length (items result)))
       (fst (getMediaItems Utc.library (loadedAt monday) ∅ []
               Js.Undefined Js.Undefined (Js.Str "abc") Js.Undefined manyEpisodes))
     = Some (Js.Undefined, 20%nat).
Proof. repeat split; vm_compute; reflexivity. Qed.

(** C9 fails as stated: a query writes into the stored records.  After a
    query for the programs running now, the stored program carries
    [isLive], which it did not before, and the next query, filtered on
    [isLive], finds it through the mark the first one left. *)
Lemma getPrograms_writes_into_the_store :
  deref (programs guide) 0 !! "isLive" = None
  /\ deref (programs afterFirstQuery) 0 !! "isLive" = Some (Js.Bool true)
  /\ programs afterFirstQuery <> programs guide
  /\ fst (getPrograms Utc.library (loadedAt duringShow) onlyLive noFlags
            Js.Undefined guide)
     = Some []
  /\ fst (getPrograms Utc.library (loadedAt duringShow) onlyLive noFlags
            Js.Undefined afterFirstQuery)
     = Some [0%nat].
Proof.
  split; [vm_compute; reflexivity |].
  split; [vm_compute; reflexivity |].
  split; [| split; vm_compute; reflexivity].
  intros H. apply (f_equal (fun heap => deref heap 0 !! "isLive")) in H.
  vm_compute in H. discriminate H.
Qed.


(** The documented query for the episodes of a season, with the season
    written 3.0: the episode that stores the season number 3 is kept. *)
Lemma filter_keeps_the_third_season :
  List.NoDup (map fst [("byType", "episode"); ("bySeasonNumber", "3.0"); ("q", "x")])
  /\ In 0%nat
       (Lodash.filter thirdSeason
          (filters Utc.library
             [("byType", "episode"); ("bySeasonNumber", "3.0"); ("q", "x")]))
  /\ exists record,
       thirdSeason !! 0%nat = Some record
       /\ forall field expected,
            predicate Utc.library
              [("byType", "episode"); ("bySeasonNumber", "3.0"); ("q", "x")] field
            = Some expected ->
            record !! field = Some (Js.of_prim expected).
Proof.
  assert (Hnames : List.NoDup
            (map fst [("byType", "episode"); ("bySeasonNumber", "3.0"); ("q", "x")])).
  { repeat (constructor; [simpl; intuition discriminate |]). constructor. }
  assert (Hkept : In 0%nat
            (Lodash.filter thirdSeason
               (filters Utc.library
                  [("byType", "episode"); ("bySeasonNumber", "3.0"); ("q", "x")])))
    by (vm_compute; left; reflexivity).
  split; [exact Hnames |]. split; [exact Hkept |].
  exact (proj1 (filter_keeps_matching_records Utc.library
                  [("byType", "episode"); ("bySeasonNumber", "3.0"); ("q", "x")]
                  thirdSeason 0 Hnames) Hkept).
Defined.


(** The mode [justEnded] at the instant 200000: three programs that ended
    at 60000, 120000 and 180000 come out in the order 180000, 120000,
    60000. *)
Lemma epgUtils_justEnded_at_200000 :
  (forall ref, In ref [0%nat; 1%nat; 2%nat] -> scheduled (deref threeEnded ref))
  /\ Js.truthy (EpgFilters.now onlyJustEnded) = false
  /\ Js.truthy (EpgFilters.upNext onlyJustEnded) = false
  /\ Js.truthy (EpgFilters.justEnded onlyJustEnded) = true
  /\ exists marked,
       epgUtils Utc.library {| now := 200000; startOfWeek := 0 |}
         [0%nat; 1%nat; 2%nat] onlyJustEnded threeEnded
       = (Some [2%nat; 1%nat; 0%nat], marked).
Proof.
  assert (H1 : forall ref, In ref [0%nat; 1%nat; 2%nat] ->
                 scheduled (deref threeEnded ref)).
  { intros ref [<- | [<- | [<- | []]]];
      [exists 0, 60 | exists 60000, 60 | exists 120000, 60];
      split; vm_compute; reflexivity. }
  split; [exact H1 |]. repeat (split; [reflexivity |]).
  destruct (epgUtils_justEnded_reverses_input Utc.library
              {| now := 200000; startOfWeek := 0 |}
              [0%nat; 1%nat; 2%nat] onlyJustEnded threeEnded
              H1 eq_refl eq_refl eq_refl)
    as (marked & Hrun & _).
  exists marked. rewrite Hrun. reflexivity.
Defined.

(** The round trip on three episodes: filtered on their type, searched
    with the empty string, sorted by nothing and paged by three, they
    come back as they are stored. *)
Lemma round_trip_on_three_episodes :
  Js.truthy (Js.Str EmptyString) = false
  /\ (forall ref, In ref (Lodash.filter (media threeEpisodes) onlyEpisodes) ->
        is_Some (stampStartsOn Utc.library (loadedAt monday)
                   (deref (media threeEpisodes) ref)))
  /\ fst (getMediaItems Utc.library (loadedAt monday) onlyEpisodes []
            Js.Undefined (num 3) (num 1) (Js.Str EmptyString) threeEpisodes)
     = Some {| nextPage := Js.Undefined; items := [0%nat; 1%nat; 2%nat] |}.
Proof.
  assert (H2 : forall ref,
             In ref (Lodash.filter (media threeEpisodes) onlyEpisodes) ->
             is_Some (stampStartsOn Utc.library (loadedAt monday)
                        (deref (media threeEpisodes) ref))).
  { intros ref Hin. vm_compute in Hin.
    destruct Hin as [<- | [<- | [<- | []]]]; apply is_Some_alt; vm_compute; exact I. }
  split; [reflexivity |]. split; [exact H2 |].
  pose proof (filter_search_sort_paginate_round_trip Utc.library (loadedAt monday)
                onlyEpisodes (Js.Str EmptyString) threeEpisodes eq_refl H2) as H.
  vm_compute in H. vm_compute. exact H.
Defined.

(** ** More on the EPG queries *)

Section EpgModes.

Variable lib : Library.
Variable module : Loaded.

(** A number below 100 counts at most 100 elements: its fraction is
    dropped and what is negative counts none. *)
Lemma lt_number_100 (n : Js.Num) :
  Js.lt (Js.Number n) (Js.Number maxResults) = true ->
  (Lodash.count (Js.Number n) <= 100)%nat.
Proof.
  unfold Js.lt, Js.compare, maxResults, Lodash.count, Lodash.toInteger.
  destruct n as [z | m e | negative |]; cbn [Js.to_primitive Js.to_number Js.compare_num];
    intros H.
  - destruct (Z.compare z 100) eqn:Hc; try discriminate H.
    change (z < 100) in Hc. lia.
  - cbn [Js.mantissa Js.scale] in H.
    destruct (Z.compare _ _) eqn:Hc in H; try discriminate H.
    change (m * 2 ^ 0 < 100 * 2 ^ Z.pos e) in Hc.
    rewrite Z.pow_0_r, Z.mul_1_r in Hc.
    assert (Hpow : 0 < 2 ^ Z.pos e) by (apply Z.pow_pos_nonneg; lia).
    destruct (Z.lt_ge_cases m 0) as [Hneg | Hpos].
    + assert (Z.quot m (2 ^ Z.pos e) <= 0) by (apply Z.quot_le_upper_bound; lia). lia.
    + rewrite Z.quot_div_nonneg by lia.
      assert (m / 2 ^ Z.pos e < 100) by (apply Z.div_lt_upper_bound; lia). lia.
  - destruct negative; [| discriminate H].
    assert (0 <= Lodash.MAX_INTEGER).
    { unfold Lodash.MAX_INTEGER. apply Z.mul_nonneg_nonneg; [| apply Z.pow_nonneg]; lia. }
    lia.
  - discriminate H.
Qed.

(** What [calculateLimit] returns counts at most 100 elements. *)
Lemma calculateLimit_bound (limit : Js.Val) :
  (Lodash.count (Js.Number (calculateLimit limit)) <= 100)%nat.
Proof.
  unfold calculateLimit. destruct (Js.truthy limit); simpl andb; cbv iota.
  - destruct (Js.lt _ _) eqn:Hlt.
    + apply lt_number_100. exact Hlt.
    + apply Nat.le_refl.
  - apply Nat.le_refl.
Qed.

(** X1. Whatever the filters, the flags and the limit, [getPrograms]
    returns at most 100 programs. *)
Theorem getPrograms_returns_at_most_100 (filters : gmap string Js.Prim)
    (epgFilters : EpgFilters.t) (limit : Js.Val) (db : Db) (found : list nat) :
  fst (getPrograms lib module filters epgFilters limit db) = Some found ->
  (length found <= 100)%nat.
Proof.
  unfold getPrograms.
  destruct (forEach _ _ (programs db)) as [[u |] placed]; [| discriminate].
  destruct (epgUtils _ _ _ _ placed) as [[selected |] marked]; [| discriminate].
  cbn [fst]. intros H. injection H as <-.
  unfold Lodash.take.
  etransitivity; [apply firstn_le_length | apply calculateLimit_bound].
Qed.

Lemma modeOf_RunningNow (epgFilters : EpgFilters.t) :
  modeOf epgFilters = RunningNow -> Js.truthy (EpgFilters.now epgFilters) = true.
Proof.
  unfold modeOf. destruct (Js.truthy (EpgFilters.now epgFilters)); [reflexivity |].
  repeat (destruct (Js.truthy _); try discriminate).
Qed.

Lemma modeOf_UpNext (epgFilters : EpgFilters.t) :
  modeOf epgFilters = UpNext ->
  Js.truthy (EpgFilters.now epgFilters) = false
  /\ Js.truthy (EpgFilters.upNext epgFilters) = true.
Proof.
  unfold modeOf. destruct (Js.truthy (EpgFilters.now epgFilters)); [discriminate |].
  destruct (Js.truthy (EpgFilters.upNext epgFilters)); [auto |].
  repeat (destruct (Js.truthy _); try discriminate).
Qed.

Lemma modeOf_JustEnded (epgFilters : EpgFilters.t) :
  modeOf epgFilters = JustEnded ->
  Js.truthy (EpgFilters.now epgFilters) = false
  /\ Js.truthy (EpgFilters.upNext epgFilters) = false
  /\ Js.truthy (EpgFilters.justEnded epgFilters) = true.
Proof.
  unfold modeOf. destruct (Js.truthy (EpgFilters.now epgFilters)); [discriminate |].
  destruct (Js.truthy (EpgFilters.upNext epgFilters)); [discriminate |].
  destruct (Js.truthy (EpgFilters.justEnded epgFilters)); [auto |].
  repeat (destruct (Js.truthy _); try discriminate).
Qed.

Lemma modeOf_Everything (epgFilters : EpgFilters.t) :
  modeOf epgFilters = Everything ->
  Js.truthy (EpgFilters.now epgFilters) = false
  /\ Js.truthy (EpgFilters.upNext epgFilters) = false
  /\ Js.truthy (EpgFilters.justEnded epgFilters) = false
  /\ Js.truthy (EpgFilters.forDay epgFilters) = false.
Proof.
  unfold modeOf. repeat (destruct (Js.truthy _); try discriminate). auto.
Qed.

(** X2. The first flag that is set decides alone: two queries whose first
    set flag is the same (with the same timestamp when it is [forDay])
    give the same result and leave the same store, whatever their other
    flags are, and [futureForDay] is never read. *)
Theorem epgUtils_first_flag_decides (programs : list nat)
    (epgFilters epgFilters' : EpgFilters.t) (heap : list Obj) :
  modeOf epgFilters = modeOf epgFilters' ->
  epgUtils lib module programs epgFilters heap
  = epgUtils lib module programs epgFilters' heap.
Proof.
  unfold modeOf, epgUtils. intros H.
  destruct (forEach _ programs heap) as [[u |] marked]; [| reflexivity].
  destruct (Js.truthy (EpgFilters.now epgFilters)),
    (Js.truthy (EpgFilters.now epgFilters')),
    (Js.truthy (EpgFilters.upNext epgFilters)),
    (Js.truthy (EpgFilters.upNext epgFilters')),
    (Js.truthy (EpgFilters.justEnded epgFilters)),
    (Js.truthy (EpgFilters.justEnded epgFilters')),
    (Js.truthy (EpgFilters.forDay epgFilters)),
    (Js.truthy (EpgFilters.forDay epgFilters'));
    try discriminate H; try reflexivity.
  injection H as ->. reflexivity.
Qed.

Lemma marked_airTimestamp (programs : list nat) (heap marked : list Obj) (ref : nat) :
  deref marked ref
  = (if liveAt (now module) (deref heap ref)
     then <["isLive" := Js.Bool true]> (deref heap ref)
     else deref heap ref) ->
  prop (deref marked ref) "airTimestamp" = prop (deref heap ref) "airTimestamp".
Proof.
  intros ->. destruct (liveAt _ _); [| reflexivity].
  apply prop_insert_ne. discriminate.
Qed.

(** X3. Under the mode [upNext] the result is made of exactly the
    programs that start at [now] or later, in the order of the input. *)
Theorem epgUtils_upNext_keeps_programs_to_come (programs : list nat)
    (epgFilters : EpgFilters.t) (heap : list Obj) :
  (forall ref, In ref programs -> scheduled (deref heap ref)) ->
  modeOf epgFilters = UpNext ->
  exists marked,
    epgUtils lib module programs epgFilters heap
    = (Some (List.filter (fun ref => startsFrom (now module) (deref heap ref))
                         programs),
       marked)
    /\ (forall ref t, In ref programs ->
          prop (deref heap ref) "airTimestamp" = Js.DateTime t ->
          (startsFrom (now module) (deref heap ref) = true <-> now module <= t)).
Proof.
  intros Hs Hmode. destruct (modeOf_UpNext _ Hmode) as [Hnow Hnext].
  destruct (marking_scheduled lib module programs heap Hs) as (marked & Hrun & Hm).
  exists marked. split.
  - unfold epgUtils. rewrite Hrun, Hnow, Hnext. f_equal. f_equal.
    apply List.filter_ext_in. intros ref Hr.
    rewrite (marked_airTimestamp programs heap marked ref (Hm ref Hr)).
    destruct (Hs ref Hr) as (t & d & Ht & _). unfold startsFrom. rewrite Ht.
    apply le_DateTime.
  - intros ref t _ Ht. unfold startsFrom. rewrite Ht. apply Z.leb_le.
Qed.

(** X4. With no flag set, [epgUtils] returns every program it is given,
    in the order of the input. *)
Theorem epgUtils_without_flag_returns_all (programs : list nat)
    (epgFilters : EpgFilters.t) (heap : list Obj) :
  (forall ref, In ref programs -> scheduled (deref heap ref)) ->
  modeOf epgFilters = Everything ->
  fst (epgUtils lib module programs epgFilters heap) = Some programs.
Proof.
  intros Hs Hmode. destruct (modeOf_Everything _ Hmode) as (H1 & H2 & H3 & H4).
  destruct (marking_scheduled lib module programs heap Hs) as (marked & Hrun & _).
  unfold epgUtils. rewrite Hrun, H1, H2, H3, H4. reflexivity.
Qed.

(** X5. Every program is returned under at least one of the modes [now],
    [upNext] and [justEnded]: asked for the running programs, for those to
    come and for those that ended, the three answers leave no program
    out. *)
Theorem every_program_is_running_to_come_or_ended (programs : list nat)
    (running toCome ended : EpgFilters.t) (heap : list Obj) :
  (forall ref, In ref programs -> scheduled (deref heap ref)) ->
  modeOf running = RunningNow ->
  modeOf toCome = UpNext ->
  modeOf ended = JustEnded ->
  exists r u e,
    fst (epgUtils lib module programs running heap) = Some r
    /\ fst (epgUtils lib module programs toCome heap) = Some u
    /\ fst (epgUtils lib module programs ended heap) = Some e
    /\ forall ref, In ref programs -> In ref r \/ In ref u \/ In ref e.
Proof.
  intros Hs Hr Hu He.
  pose proof (modeOf_RunningNow _ Hr) as Hr1.
  destruct (modeOf_UpNext _ Hu) as [Hu1 Hu2].
  destruct (modeOf_JustEnded _ He) as (He1 & He2 & He3).
  destruct (marking_scheduled lib module programs heap Hs) as (marked & Hrun & Hm).
  assert (Hended : filterM (fun program => hasEnded lib module (deref marked program))
                     programs
                   = Some (List.filter
                             (fun ref => endedBy (now module) (deref heap ref))
                             programs)).
  { apply filterM_total. intros ref Hin.
    destruct (endedBy_marked module programs heap marked ref Hin (Hm ref Hin) (Hs ref Hin))
      as [Hsch Heq].
    rewrite hasEnded_scheduled by exact Hsch. rewrite Heq. reflexivity. }
  eexists _, _, _. unfold epgUtils.
  rewrite Hrun, Hr1, Hu1, Hu2, He1, He2, He3, Hended. cbn [fst option_map].
  split; [reflexivity |]. split; [reflexivity |]. split; [reflexivity |].
  intros ref Hin. rewrite <- in_rev, !List.filter_In.
  destruct (Hs ref Hin) as (t & d & Ht & Hd).
  rewrite (marked_airTimestamp programs heap marked ref (Hm ref Hin)), Ht, le_DateTime.
  rewrite (Hm ref Hin). unfold liveAt, endedBy. rewrite Ht, Hd.
  destruct (Z.leb t (now module)) eqn:Hstart; simpl.
  - destruct (Z.leb (now module) (t + 1000 * d)) eqn:Hend.
    + left. split; [exact Hin |]. rewrite prop_insert_eq. reflexivity.
    + right. right. split; [exact Hin |]. apply Z.leb_le.
      apply Z.leb_gt in Hend. lia.
  - right. left. split; [exact Hin |]. apply Z.leb_le. apply Z.leb_gt in Hstart. lia.
Qed.

End EpgModes.

(** ** A query asked twice *)

Section Repeated.

Variable lib : Library.
Variable module : Loaded.

(** A callback that changes none of the records it visits leaves the
    store as it is. *)
Lemma forEach_fixed (callback : Obj -> option Obj) (collection : list nat)
    (heap : list Obj) :
  (forall ref, In ref collection ->
     callback (deref heap ref) = Some (deref heap ref)) ->
  forEach callback collection heap = (Some tt, heap).
Proof.
  induction collection as [| ref rest IH]; intros H; simpl; [reflexivity |].
  rewrite (H ref (or_introl eq_refl)).
  assert (Hid : <[ref := deref heap ref]> heap = heap).
  { unfold deref. destruct (heap !! ref) as [object |] eqn:Hl.
    - apply list_insert_id. exact Hl.
    - apply list_insert_ge. apply lookup_ge_None. exact Hl. }
  rewrite Hid. apply IH. intros other Hother. apply H. right. exact Hother.
Qed.

(** A run that did not throw found a result on every record. *)
Lemma forEach_returned (callback : Obj -> option Obj) (collection : list nat)
    (heap heap' : list Obj) (u : unit) :
  settles callback ->
  forEach callback collection heap = (Some u, heap') ->
  forall ref, In ref collection -> is_Some (callback (deref heap ref)).
Proof.
  intros Hs. revert heap. induction collection as [| ref rest IH]; intros heap Hrun other Hin.
  - destruct Hin.
  - simpl in Hrun. destruct (callback (deref heap ref)) as [object |] eqn:Hc;
      [| discriminate Hrun].
    destruct Hin as [<- | Hin]; [eauto |].
    specialize (IH _ Hrun other Hin). rewrite deref_insert in IH.
    destruct (decide _) as [[<- _] | _]; [eauto | exact IH].
Qed.

Lemma matches_agree (source : gmap string Js.Prim) (object object' : Obj) :
  (forall key, is_Some (source !! key) -> object' !! key = object !! key) ->
  Lodash.matches source object' = Lodash.matches source object.
Proof.
  intros H. apply eq_true_iff_eq. rewrite !matches_spec.
  split; intros Hm field expected Hs.
  - rewrite <- H by eauto. apply Hm, Hs.
  - rewrite H by eauto. apply Hm, Hs.
Qed.

(** The filter does not see the properties it holds no predicate on. *)
Lemma filter_sameBut (keys : list string) (source : gmap string Js.Prim)
    (before after : list Obj) :
  sameBut keys before after ->
  (forall key, In key keys -> source !! key = None) ->
  Lodash.filter after source = Lodash.filter before source.
Proof.
  intros [Hlen Hsame] Hkeys. unfold Lodash.filter. rewrite Hlen.
  apply List.filter_ext. intros ref. apply matches_agree.
  intros key [expected Hk]. apply Hsame. intros Hin.
  rewrite (Hkeys key Hin) in Hk. discriminate Hk.
Qed.

Lemma filter_in_range (collection : list Obj) (source : gmap string Js.Prim)
    (ref : nat) :
  In ref (Lodash.filter collection source) -> (ref < length collection)%nat.
Proof.
  intros H. apply filter_In in H. destruct H as (record & Hr & _).
  apply lookup_lt_is_Some_1. eauto.
Qed.

Lemma placeInWeek_settles : settles (placeInWeek lib module).
Proof.
  intros object object' H. unfold placeInWeek in *.
  destruct (plusDuration lib (startOfWeek module) (prop object "airTime")) eqn:Hp;
    simpl in H; inversion H; subst.
  rewrite prop_insert_ne by discriminate. rewrite Hp. simpl.
  rewrite insert_insert_eq. reflexivity.
Qed.

Lemma placeInWeek_marked (object : Obj) (value : Js.Val) :
  placeInWeek lib module object = Some object ->
  placeInWeek lib module (<["isLive" := value]> object)
  = Some (<["isLive" := value]> object).
Proof.
  unfold placeInWeek. rewrite prop_insert_ne by discriminate.
  destruct (plusDuration lib (startOfWeek module) (prop object "airTime")); simpl;
    [| discriminate].
  intros H. injection H as H. rewrite insert_insert_ne by discriminate.
  rewrite H. reflexivity.
Qed.

Lemma epgUtils_after_marking (programs : list nat) (epgFilters : EpgFilters.t)
    (heap marked : list Obj) (u : unit) :
  forEach (markLive lib module) programs heap = (Some u, marked) ->
  (forall ref, In ref programs ->
     markLive lib module (deref marked ref) = Some (deref marked ref)) ->
  epgUtils lib module programs epgFilters marked
  = epgUtils lib module programs epgFilters heap.
Proof.
  intros H Hfix. unfold epgUtils. rewrite H, (forEach_fixed _ _ _ Hfix). reflexivity.
Qed.

(** X6. A query asked again gives the same answer and changes the store
    no further.  When a call of [getPrograms] returned, and its filters
    hold no predicate on the two properties the query writes, the same
    call on the store it left returns the same programs and leaves that
    store as it is. *)
Theorem getPrograms_again_is_the_same (filters : gmap string Js.Prim)
    (epgFilters : EpgFilters.t) (limit : Js.Val) (db : Db) (found : list nat) :
  filters !! "airTimestamp" = None ->
  filters !! "isLive" = None ->
  fst (getPrograms lib module filters epgFilters limit db) = Some found ->
  getPrograms lib module filters epgFilters limit
    (snd (getPrograms lib module filters epgFilters limit db))
  = (Some found, snd (getPrograms lib module filters epgFilters limit db)).
Proof.
  intros Hair Hlive. unfold getPrograms at 1 3 4.
  set (selected := Lodash.filter (programs db) filters).
  destruct (forEach (placeInWeek lib module) selected (programs db))
    as [[u |] placed] eqn:Hplace; [| discriminate].
  destruct (epgUtils lib module selected epgFilters placed)
    as [[result |] marked] eqn:Hepg; [| discriminate].
  cbn [fst snd]. intros Hfound. injection Hfound as <-.
  assert (Hmark : exists u', forEach (markLive lib module) selected placed
                             = (Some u', marked)).
  { revert Hepg. unfold epgUtils.
    destruct (forEach (markLive lib module) selected placed) as [[u' |] marked'].
    - intros H. exists u'. f_equal.
      repeat match type of H with
             | (if ?c then _ else _) = _ => destruct c
             end; injection H as _ <-; reflexivity.
    - discriminate. }
  destruct Hmark as [u' Hmark].
  (* what the two passes left on the selected programs *)
  pose proof (forEach_sameBut ["airTimestamp"] _ selected (programs db)
                (placeInWeek_writesOnly lib module)) as Sp.
  rewrite Hplace in Sp. simpl in Sp.
  pose proof (forEach_sameBut ["isLive"] _ selected placed
                (markLive_writesOnly lib module)) as Sm.
  rewrite Hmark in Sm. simpl in Sm.
  assert (Hboth : sameBut ["airTimestamp"; "isLive"] (programs db) marked).
  { eapply sameBut_trans.
    - eapply sameBut_weaken; [| exact Sp]. intros k [<- | []]. left. reflexivity.
    - eapply sameBut_weaken; [| exact Sm]. intros k [<- | []]. right. left. reflexivity. }
  assert (Hsel : Lodash.filter marked filters = selected).
  { apply (filter_sameBut ["airTimestamp"; "isLive"]); [exact Hboth |].
    intros key [<- | [<- | []]]; assumption. }
  destruct (forEach_ok _ selected (programs db) placeInWeek_settles
              (forEach_returned _ _ _ _ _ placeInWeek_settles Hplace))
    as (placed' & Hplace' & Hlenp & Hinp & _).
  rewrite Hplace in Hplace'. injection Hplace' as _ <-.
  destruct (forEach_ok _ selected placed (markLive_settles lib module)
              (forEach_returned _ _ _ _ _ (markLive_settles lib module) Hmark))
    as (marked' & Hmark' & Hlenm & Hinm & _).
  rewrite Hmark in Hmark'. injection Hmark' as _ <-.
  assert (Hfix1 : forall ref, In ref selected ->
            placeInWeek lib module (deref marked ref) = Some (deref marked ref)).
  { intros ref Hin.
    assert (Hlt : (ref < length (programs db))%nat)
      by (apply (filter_in_range _ filters); exact Hin).
    specialize (Hinp ref Hin Hlt).
    assert (Hlt' : (ref < length placed)%nat) by (rewrite Hlenp; exact Hlt).
    specialize (Hinm ref Hin Hlt').
    pose proof (placeInWeek_settles _ _ Hinp) as Hset.
    unfold markLive in Hinm.
    destruct (isAiring lib module (deref placed ref)) as [[|] |];
      simpl in Hinm; try discriminate Hinm; injection Hinm as <-.
    - apply placeInWeek_marked. exact Hset.
    - exact Hset. }
  assert (Hfix2 : forall ref, In ref selected ->
            markLive lib module (deref marked ref) = Some (deref marked ref)).
  { intros ref Hin.
    assert (Hlt : (ref < length placed)%nat).
    { rewrite Hlenp. apply (filter_in_range _ filters). exact Hin. }
    apply (markLive_settles lib module _ _ (Hinm ref Hin Hlt)). }
  unfold getPrograms. cbn [programs media]. rewrite Hsel.
  rewrite (forEach_fixed _ selected marked Hfix1).
  rewrite (epgUtils_after_marking selected epgFilters placed marked u' Hmark Hfix2).
  rewrite Hepg. reflexivity.
Qed.

End Repeated.

(** ** More on the filter and the sort *)

Section Order.

Lemma map_snd_imap (f : nat -> nat -> Lodash.Entry) (collection : list nat) :
  (forall index ref, snd (f index ref) = ref) ->
  map snd (imap f collection) = collection.
Proof.
  revert f. induction collection as [| ref rest IH]; intros f Hf; [reflexivity |].
  cbn [imap map]. rewrite Hf. f_equal. apply IH. intros index r. apply Hf.
Qed.

Lemma insert_Permutation (comparer : Lodash.Entry -> Lodash.Entry -> comparison)
    (x : Lodash.Entry) (sorted : list Lodash.Entry) :
  Permutation (Lodash.insert comparer x sorted) (x :: sorted).
Proof.
  induction sorted as [| y rest IH]; simpl; [reflexivity |].
  destruct (comparer x y); try reflexivity.
  rewrite IH. apply perm_swap.
Qed.

Lemma baseSortBy_Permutation (comparer : Lodash.Entry -> Lodash.Entry -> comparison)
    (array : list Lodash.Entry) :
  Permutation (Lodash.baseSortBy comparer array) array.
Proof.
  unfold Lodash.baseSortBy. induction array as [| x rest IH]; simpl; [reflexivity |].
  rewrite insert_Permutation, IH. reflexivity.
Qed.

Lemma sortBy_Permutation (access : string -> Obj -> Js.Val) (heap : list Obj)
    (collection : list nat) (iteratees : list string) :
  Permutation (Lodash.sortBy access heap collection iteratees) collection.
Proof.
  unfold Lodash.sortBy. rewrite baseSortBy_Permutation.
  rewrite map_snd_imap by reflexivity. reflexivity.
Qed.

(** The references [_.filter] returns are in the order of the store: each
    is smaller than those after it. *)
Lemma filter_increasing (collection : list Obj) (source : gmap string Js.Prim) :
  StronglySorted lt (Lodash.filter collection source).
Proof.
  unfold Lodash.filter. generalize 0%nat as start.
  induction (length collection) as [| n IH]; intros start; simpl; [constructor |].
  destruct (Lodash.matches source (deref collection start)).
  - constructor; [apply IH |]. apply Forall_forall. intros ref Hin.
    apply list_elem_of_In, List.filter_In in Hin. destruct Hin as [Hin _].
    apply in_seq in Hin. lia.
  - apply IH.
Qed.

Lemma increasing_lookup (collection : list nat) (i j a b : nat) :
  StronglySorted lt collection ->
  collection !! i = Some a -> collection !! j = Some b ->
  (i <= j)%nat -> (a <= b)%nat.
Proof.
  intros Hs. revert i j. induction Hs as [| x rest Hs IH Hall]; intros i j Hi Hj Hij.
  - discriminate Hi.
  - destruct i as [| i], j as [| j]; simpl in Hi, Hj.
    + injection Hi as <-. injection Hj as <-. lia.
    + injection Hi as <-. rewrite Forall_forall in Hall.
      assert (x < b)%nat; [| lia]. apply Hall.
      apply list_elem_of_lookup. eauto.
    + lia.
    + apply (IH i j Hi Hj). lia.
Qed.

Lemma compareAscending_integers (z z' : Z) :
  Lodash.compareAscending (Js.Number (Js.Int z)) (Js.Number (Js.Int z'))
  = Z.compare z z'.
Proof.
  unfold Lodash.compareAscending, Js.gt, Js.lt. simpl.
  destruct (Z.eqb z z') eqn:He.
  - apply Z.eqb_eq in He. subst. rewrite Z.compare_refl. reflexivity.
  - destruct (Z.compare z z') eqn:Hc; reflexivity.
Qed.

Lemma entryLe_keyed (k : nat -> Z) (collection : list nat) (x y : Lodash.Entry) :
  keyed k collection x -> keyed k collection y ->
  entryLe x y
  <-> k (snd x) < k (snd y)
      \/ (k (snd x) = k (snd y) /\ (snd (fst x) <= snd (fst y))%nat).
Proof.
  intros [Hx _] [Hy _]. unfold entryLe, Lodash.compareMultiple.
  rewrite Hx, Hy. cbn [Lodash.compareCriteria].
  rewrite compareAscending_integers.
  destruct (Z.compare (k (snd x)) (k (snd y))) eqn:Hc.
  - apply Z.compare_eq in Hc. rewrite Nat.compare_gt_iff. split.
    + intros H. right. split; [exact Hc | lia].
    + intros [Hlt | [_ Hle]]; lia.
  - apply Z.compare_lt_iff in Hc. split; [intros _; left; exact Hc | discriminate].
  - apply Z.compare_gt_iff in Hc. split.
    + intros H. contradiction.
    + intros [Hlt | [Heq _]]; exfalso; lia.
Qed.

Lemma insert_sorted (k : nat -> Z) (collection : list nat) (x : Lodash.Entry)
    (sorted : list Lodash.Entry) :
  keyed k collection x ->
  Forall (keyed k collection) sorted ->
  StronglySorted entryLe sorted ->
  StronglySorted entryLe (Lodash.insert Lodash.compareMultiple x sorted).
Proof.
  intros Hx Hall Hs. induction Hs as [| y rest Hs IH Hy]; simpl.
  - repeat constructor.
  - apply Forall_cons in Hall. destruct Hall as [Hky Hrest].
    assert (Hbefore : entryLe x y -> StronglySorted entryLe (x :: y :: rest)).
    { intros Hle. constructor; [constructor; assumption |].
      constructor; [exact Hle |].
      rewrite Forall_forall in Hy. rewrite Forall_forall in Hrest.
      rewrite Forall_forall. intros z Hz.
      apply (entryLe_keyed k collection); [exact Hx | apply Hrest, Hz |].
      apply (entryLe_keyed k collection x y Hx Hky) in Hle.
      pose proof (proj1 (entryLe_keyed k collection y z Hky (Hrest z Hz)) (Hy z Hz)).
      lia. }
    destruct (Lodash.compareMultiple x y) eqn:Hc.
    + apply Hbefore. unfold entryLe. rewrite Hc. discriminate.
    + apply Hbefore. unfold entryLe. rewrite Hc. discriminate.
    + constructor; [apply IH, Hrest |].
      rewrite insert_Permutation. constructor; [| exact Hy].
      apply (entryLe_keyed k collection); [exact Hky | exact Hx |].
      assert (Hn : ~ entryLe x y) by (unfold entryLe; rewrite Hc; auto).
      rewrite (entryLe_keyed k collection x y Hx Hky) in Hn. lia.
Qed.

Lemma baseSortBy_sorted (k : nat -> Z) (collection : list nat)
    (array : list Lodash.Entry) :
  Forall (keyed k collection) array ->
  StronglySorted entryLe (Lodash.baseSortBy Lodash.compareMultiple array).
Proof.
  unfold Lodash.baseSortBy. induction array as [| x rest IH]; intros Hall; simpl.
  - constructor.
  - apply Forall_cons in Hall. destruct Hall as [Hx Hrest].
    apply (insert_sorted k collection); [exact Hx | | apply IH, Hrest].
    change (foldr (Lodash.insert Lodash.compareMultiple) [] rest)
      with (Lodash.baseSortBy Lodash.compareMultiple rest).
    rewrite baseSortBy_Permutation. exact Hrest.
Qed.

Lemma sorted_refs (k : nat -> Z) (collection : list nat) (sorted : list Lodash.Entry) :
  StronglySorted lt collection ->
  Forall (keyed k collection) sorted ->
  StronglySorted entryLe sorted ->
  StronglySorted (fun a b => k a < k b \/ (k a = k b /\ (a <= b)%nat))
                 (map snd sorted).
Proof.
  intros Hinc Hall Hs. induction Hs as [| x rest Hs IH Hx]; simpl; [constructor |].
  apply Forall_cons in Hall. destruct Hall as [Hkx Hrest].
  constructor; [apply IH, Hrest |].
  rewrite Forall_forall in Hx. rewrite Forall_forall in Hrest.
  rewrite Forall_forall. intros b Hb.
  apply list_elem_of_fmap in Hb. destruct Hb as (y & -> & Hy).
  pose proof (proj1 (entryLe_keyed k collection x y Hkx (Hrest y Hy)) (Hx y Hy))
    as [Hlt | [Heq Hle]]; [left; exact Hlt |].
  right. split; [exact Heq |].
  destruct Hkx as [_ Hlx]. destruct (Hrest y Hy) as [_ Hly].
  apply (increasing_lookup collection _ _ _ _ Hinc Hlx Hly Hle).
Qed.

Lemma increasing_NoDup (collection : list nat) :
  StronglySorted lt collection -> NoDup collection.
Proof.
  induction 1 as [| x rest Hs IH Hx]; constructor; [| exact IH].
  intros Hin. rewrite Forall_forall in Hx. specialize (Hx x Hin). lia.
Qed.

Lemma sorted_strict (k : nat -> Z) (refs : list nat) :
  NoDup refs ->
  StronglySorted (fun a b => k a < k b \/ (k a = k b /\ (a <= b)%nat)) refs ->
  StronglySorted (byKey k) refs.
Proof.
  intros Hnd Hs. induction Hs as [| x rest Hs IH Hx]; [constructor |].
  apply NoDup_cons in Hnd. destruct Hnd as [Hnx Hnd].
  constructor; [apply IH, Hnd |].
  rewrite Forall_forall in Hx. rewrite Forall_forall. intros b Hb.
  destruct (Hx b Hb) as [Hlt | [Heq Hle]]; [left; exact Hlt |].
  right. split; [exact Heq |].
  assert (x <> b) by (intros ->; contradiction). lia.
Qed.

(** Sorting a collection that is in the order of the store on one key
    that reads an integer on every record. *)
Lemma sortBy_one_key (access : string -> Obj -> Js.Val) (heap : list Obj)
    (collection : list nat) (key : string) (k : nat -> Z) :
  StronglySorted lt collection ->
  (forall ref, In ref collection ->
     access key (deref heap ref) = Js.Number (Js.Int (k ref))) ->
  StronglySorted (byKey k) (Lodash.sortBy access heap collection [key]).
Proof.
  intros Hinc Hkey. apply sorted_strict.
  - rewrite sortBy_Permutation. apply increasing_NoDup, Hinc.
  - unfold Lodash.sortBy. cbn [map].
    assert (Hall : Forall (keyed k collection)
                     (imap (fun index ref =>
                              ([access key (deref heap ref)], index, ref))
                           collection)).
    { rewrite Forall_forall. intros entry Hin.
      apply elem_of_lookup_imap in Hin. destruct Hin as (index & ref & -> & Hl).
      split; [| exact Hl]. cbn [fst snd]. rewrite Hkey; [reflexivity |].
      apply list_elem_of_In, list_elem_of_lookup. eauto. }
    apply (sorted_refs k collection); [exact Hinc | | ].
    + rewrite baseSortBy_Permutation. exact Hall.
    + apply (baseSortBy_sorted k collection). exact Hall.
Qed.

(** X7. Whatever the keys, sorting neither drops a record nor repeats
    one: the sorted collection is a permutation of the collection. *)
Theorem sortBy_permutes (access : string -> Obj -> Js.Val) (heap : list Obj)
    (collection : list nat) (iteratees : list string) :
  Permutation (Lodash.sortBy access heap collection iteratees) collection.
Proof. apply sortBy_Permutation. Qed.

(** X8. Without a search, the records of a query sorted on one key that
    reads an integer on each of them come out ascending by that integer,
    and records with the same integer come out in the order of the
    store. *)
Theorem baseQuery_sorts_ascending_and_stable (lib : Library)
    (filters : gmap string Js.Prim) (key : string) (q : Js.Val) (db : Db)
    (k : nat -> Z) :
  Js.truthy q = false ->
  (forall ref, In ref (Lodash.filter (media db) filters) ->
     property lib key (deref (media db) ref) = Js.Number (Js.Int (k ref))) ->
  StronglySorted (byKey k) (baseQuery lib filters [key] q db).
Proof.
  intros Hq Hkey. unfold baseQuery, fuse. rewrite Hq.
  apply sortBy_one_key; [apply filter_increasing | exact Hkey].
Qed.

(** X9. The references the filter returns are valid and in the order of
    the store, none twice, and a filter without predicates returns every
    record. *)
Theorem filter_returns_references_in_store_order (collection : list Obj)
    (source : gmap string Js.Prim) :
  StronglySorted lt (Lodash.filter collection source)
  /\ (forall ref, In ref (Lodash.filter collection source) ->
        (ref < length collection)%nat)
  /\ Lodash.filter collection ∅ = seq 0 (length collection).
Proof.
  split; [apply filter_increasing |]. split.
  - intros ref Hin. unfold Lodash.filter in Hin.
    apply List.filter_In in Hin. destruct Hin as [Hin _].
    apply in_seq in Hin. lia.
  - unfold Lodash.filter, Lodash.matches. rewrite map_to_list_empty. simpl.
    induction (seq 0 (length collection)) as [| x rest IH]; simpl; [reflexivity |].
    rewrite IH. reflexivity.
Qed.

End Order.

(** ** More on the paginator *)

Section Pages.

Variable lib : Library.
Variable module : Loaded.

Lemma mul_num_NaN (b : Js.Num) : Js.mul_num Js.NaN b = Js.NaN.
Proof. destruct b; reflexivity. Qed.

Lemma gt_NaN (v : Js.Val) : Js.gt v (Js.Number Js.NaN) = false.
Proof.
  unfold Js.gt, Js.compare.
  destruct v as [| | b | n | s | ms | ps]; cbn [Js.to_primitive Js.to_number];
    try reflexivity;
    match goal with
    | |- context [Js.compare_num ?x Js.NaN] => destruct x; reflexivity
    end.
Qed.

(** X10. No [page], [perPage] or [maxPage] that is absent or is a string,
    a number or a boolean makes [getMediaItems] throw: when the stamp of
    a start does not throw on the records of the query, the call returns,
    its items are a run of consecutive records of the ordered sequence,
    and its next page is absent or the page, which is then no NaN as a
    number, plus 1. *)
Theorem getMediaItems_returns_for_any_parameters (filters : gmap string Js.Prim)
    (sorts : list string) (maxPage perPage page : option Js.Prim) (q : Js.Val)
    (db : Db) :
  let records := baseQuery lib filters sorts q db in
  let currentPage := Lodash.defaultTo (argument page) (Js.Number (Js.Int 1)) in
  (forall ref, In ref records ->
     is_Some (stampStartsOn lib module (deref (media db) ref))) ->
  exists result,
    fst (getMediaItems lib module filters sorts
           (argument maxPage) (argument perPage) (argument page) q db)
    = Some result
    /\ (exists skipped taken, items result = firstn taken (skipn skipped records))
    /\ (nextPage result = Js.Undefined
        \/ (Js.to_number currentPage <> Js.NaN
            /\ nextPage result
               = Js.Number (Js.add (Js.to_number currentPage) (Js.Int 1)))).
Proof.
  intros records currentPage Hstamp. unfold getMediaItems. cbv zeta.
  fold records currentPage.
  destruct (Js.gt currentPage _).
  - eexists. split; [reflexivity |]. split; [| left; reflexivity].
    exists 0%nat, 0%nat. reflexivity.
  - destruct (forEach_ok _ records (media db) (stampStartsOn_settles lib module) Hstamp)
      as (stamped & Hrun & _).
    rewrite Hrun. eexists. split; [reflexivity |]. cbn [items nextPage]. split.
    + unfold Lodash.take, Lodash.drop. eauto.
    + destruct (Js.gt (Lodash.defaultTo (argument maxPage) _) _); [| left; reflexivity].
      destruct (Js.gt (Js.Number (Js.Int (Z.of_nat (length records)))) _) eqn:Hmore;
        [| left; reflexivity].
      right. split; [| reflexivity].
      intros Hnan. unfold Js.mul in Hmore.
      rewrite Hnan, mul_num_NaN, gt_NaN in Hmore. discriminate Hmore.
Qed.

(** X11. A page holds what is left for it: on numbers, with a page from 1
    to the last page and a page size that is not negative, the number of
    items is the page size, or what remains of the records after the pages
    before when that is less. *)
Theorem page_holds_what_is_left (filters : gmap string Js.Prim)
    (sorts : list string) (q : Js.Val) (db : Db) (page perPage maxPage : option Z) :
  let p := default 1 page in
  let pp := default 20 perPage in
  let mp := default 100 maxPage in
  let records := baseQuery lib filters sorts q db in
  1 <= p <= mp ->
  0 <= pp ->
  (forall ref, In ref records ->
     is_Some (stampStartsOn lib module (deref (media db) ref))) ->
  exists result,
    fst (getMediaItems lib module filters sorts
           (param maxPage) (param perPage) (param page) q db)
    = Some result
    /\ Z.of_nat (length (items result))
       = Z.max 0 (Z.min pp (Z.of_nat (length records) - (p - 1) * pp)).
Proof.
  intros p pp mp records [Hp Hmp] Hpp Hstamp.
  pose proof (getMediaItems_on_numbers lib module filters sorts q db
                page perPage maxPage) as H.
  cbv zeta in H. fold p pp mp records in H. rewrite (H Hp Hstamp).
  replace (Z.gtb p mp) with false by (symmetry; rewrite Z.gtb_ltb; apply Z.ltb_ge; lia).
  eexists. split; [reflexivity |]. cbn [items]. unfold slice.
  rewrite length_skipn, length_firstn. nia.
Qed.

End Pages.

(** ** The [/epg] route *)

Section EpgRouteFacts.

Variable lib : Library.

Lemma fold_addEpgFilter_values (query : list (string * string))
    (result : gmap string Js.Prim) :
  (forall field expected, result !! field = Some expected ->
     expected = Js.PBool true \/ exists s, expected = Js.PStr s) ->
  forall field expected,
    fold_left (addEpgFilter lib) query result !! field = Some expected ->
    expected = Js.PBool true \/ exists s, expected = Js.PStr s.
Proof.
  revert result. induction query as [| [key value] rest IH]; intros result Hres;
    simpl; [exact Hres |].
  apply IH. destruct (String.prefix "by" key); [| exact Hres].
  intros field expected.
  destruct (decide (camelCase lib (substring2 key) = field)) as [<- | Hne].
  - rewrite lookup_insert_eq. intros H. injection H as <-.
    destruct (String.eqb value "true"); eauto.
  - rewrite lookup_insert_ne by exact Hne. apply Hres.
Qed.

Lemma epg_filters_match_strings_and_true (query : list (string * string))
    (collection : list Obj) (ref : nat) (field : string) :
  In ref (Lodash.filter collection (epgRouteFilters lib query)) ->
  is_Some (epgRouteFilters lib query !! field) ->
  exists record,
    collection !! ref = Some record
    /\ (record !! field = Some (Js.Bool true)
        \/ exists s, record !! field = Some (Js.Str s)).
Proof.
  intros Hin [expected Hexp].
  apply filter_In in Hin. destruct Hin as (record & Hr & Hm).
  exists record. split; [exact Hr |].
  rewrite matches_spec in Hm. rewrite (Hm field expected Hexp).
  destruct (fold_addEpgFilter_values query ∅) with (field := field) (expected := expected)
    as [-> | [s ->]]; [| exact Hexp | left; reflexivity | right; eauto].
  intros f e H. rewrite lookup_empty in H. discriminate H.
Qed.

(** X12. On the [/epg] route no expected value is made a number, so a
    query of this route with a predicate on a field never returns a
    program that stores a number in that field: a query on the season
    number or on the episode number finds no program whose number is
    stored as a number. *)
Theorem epg_filters_never_match_a_number (query : list (string * string))
    (collection : list Obj) (ref : nat) (field : string) (record : Obj)
    (n : Js.Num) :
  collection !! ref = Some record ->
  record !! field = Some (Js.Number n) ->
  is_Some (epgRouteFilters lib query !! field) ->
  ~ In ref (Lodash.filter collection (epgRouteFilters lib query)).
Proof.
  intros Hr Hn Hf Hin.
  destruct (epg_filters_match_strings_and_true query collection ref field Hin Hf)
    as (record' & Hr' & [H | [s H]]);
    rewrite Hr in Hr'; injection Hr' as <-; rewrite Hn in H; discriminate H.
Qed.

Lemma fold_addEpgFilter_app (l1 l2 : list (string * string))
    (result : gmap string Js.Prim) :
  fold_left (addEpgFilter lib) (l1 ++ l2) result
  = fold_left (addEpgFilter lib) l2 (fold_left (addEpgFilter lib) l1 result).
Proof. apply fold_left_app. Qed.

Lemma queryParam_skips (l1 l2 : list (string * string)) (key value name : string) :
  key <> name ->
  queryParam (l1 ++ (key, value) :: l2) name = queryParam (l1 ++ l2) name.
Proof.
  intros Hne. unfold queryParam. f_equal.
  induction l1 as [| [k v] rest IH]; simpl.
  - destruct (String.eqb key name) eqn:He; [| reflexivity].
    apply String.eqb_eq in He. contradiction.
  - destruct (String.eqb k name); [reflexivity | exact IH].
Qed.

(** X13. The [/epg] route does not paginate: a parameter [page],
    [perPage], [maxPage] or [limit] in the query string changes neither
    the programs returned nor the store. *)
Theorem epg_route_ignores_pagination (module : Loaded)
    (l1 l2 : list (string * string)) (key value : string) (db : Db) :
  In key ["page"; "perPage"; "maxPage"; "limit"] ->
  epgRouteQuery lib module (l1 ++ (key, value) :: l2) db
  = epgRouteQuery lib module (l1 ++ l2) db.
Proof.
  intros Hkey. unfold epgRouteQuery.
  assert (Hflags : epgRouteFlags (l1 ++ (key, value) :: l2) = epgRouteFlags (l1 ++ l2)).
  { unfold epgRouteFlags.
    rewrite !(queryParam_skips l1 l2 key value)
      by (destruct Hkey as [<- | [<- | [<- | [<- | []]]]]; discriminate).
    reflexivity. }
  assert (Hfilters : epgRouteFilters lib (l1 ++ (key, value) :: l2)
                     = epgRouteFilters lib (l1 ++ l2)).
  { unfold epgRouteFilters. rewrite !fold_addEpgFilter_app. simpl.
    destruct Hkey as [<- | [<- | [<- | [<- | []]]]]; reflexivity. }
  rewrite Hflags, Hfilters. reflexivity.
Qed.

End EpgRouteFacts.

(** ** The collections *)

Section CollectionFacts.

Variable shuffle : list nat -> list nat.
Hypothesis shuffle_permutes : forall l, Permutation (shuffle l) l.

Lemma filterWith_In (keep : Obj -> bool) (collection : list Obj) (ref : nat) :
  In ref (filterWith keep collection)
  <-> exists item, collection !! ref = Some item /\ keep item = true.
Proof.
  unfold filterWith. rewrite List.filter_In, in_seq. unfold deref. split.
  - intros [[_ Hlt] Hk]. simpl in Hlt.
    destruct (lookup_lt_is_Some_2 collection ref Hlt) as [item Hi].
    rewrite Hi in Hk. eauto.
  - intros (item & Hi & Hk). rewrite Hi. split; [| exact Hk].
    split; [lia |]. simpl. apply lookup_lt_is_Some_1. eauto.
Qed.

Lemma filterWith_NoDup (keep : Obj -> bool) (collection : list Obj) :
  NoDup (filterWith keep collection).
Proof.
  unfold filterWith. apply NoDup_ListNoDup, List.NoDup_filter.
  apply NoDup_ListNoDup, NoDup_seq.
Qed.

Lemma firstn_NoDup (n : nat) (l : list nat) : NoDup l -> NoDup (firstn n l).
Proof.
  intros H. rewrite <- (firstn_skipn n l) in H.
  apply NoDup_app in H. tauto.
Qed.

Lemma firstn_In (n : nat) (l : list nat) (x : nat) : In x (firstn n l) -> In x l.
Proof.
  intros H. rewrite <- (firstn_skipn n l). apply in_or_app. left. exact H.
Qed.

(** The first [n] of a shuffle of the records [keep] keeps. *)
Lemma featured (keep : Obj -> bool) (collection : list Obj) (n : Z) :
  let found := Lodash.take (shuffle (filterWith keep collection)) (num n) in
  length found = Nat.min (Z.to_nat n) (length (filterWith keep collection))
  /\ NoDup found
  /\ forall ref, In ref found ->
       exists item, collection !! ref = Some item /\ keep item = true.
Proof.
  cbv zeta. unfold Lodash.take. change (Lodash.count (num n)) with (Z.to_nat n).
  split; [| split].
  - rewrite length_firstn, (Permutation_length (shuffle_permutes _)). reflexivity.
  - apply firstn_NoDup. rewrite shuffle_permutes. apply filterWith_NoDup.
  - intros ref Hin. apply filterWith_In.
    apply (Permutation_in _ (shuffle_permutes _)).
    apply (firstn_In _ _ _ Hin).
Qed.

Lemma strict_eq_Str (v : Js.Val) (s : string) :
  Js.strict_eq v (Js.Str s) = true <-> v = Js.Str s.
Proof.
  destruct v as [| | b | [z | m e | negative |] | t | ms | ps]; simpl; split; intros H;
    try discriminate H.
  - apply String.eqb_eq in H. congruence.
  - injection H as ->. apply String.eqb_refl.
Qed.

Lemma seriesOf_spec (category : string) (item : Obj) :
  seriesOf category item = true
  <-> prop item "type" = Js.Str "series"
      /\ prop item "category" = Js.Str category.
Proof.
  unfold seriesOf, hasType. rewrite andb_true_iff, !strict_eq_Str. reflexivity.
Qed.

Lemma episodeOrSeries_spec (item : Obj) :
  episodeOrSeries item = true
  <-> prop item "type" = Js.Str "episode" \/ prop item "type" = Js.Str "series".
Proof.
  unfold episodeOrSeries, hasType. rewrite orb_true_iff, !strict_eq_Str. reflexivity.
Qed.

(** X14. [getCollectionByName] returns for the names [homeFeatured],
    [featuredDrama] and [featuredAction] and throws for every other name,
    the name [genres] among them. *)
Theorem getCollectionByName_knows_three_names (name : string) (db : Db) :
  is_Some (getCollectionByName shuffle name db)
  <-> In name ["homeFeatured"; "featuredDrama"; "featuredAction"].
Proof.
  unfold getCollectionByName.
  destruct (String.eqb name "homeFeatured") eqn:H1.
  { apply String.eqb_eq in H1. split; [intros _; left; auto | eauto]. }
  destruct (String.eqb name "featuredDrama") eqn:H2.
  { apply String.eqb_eq in H2. split; [intros _; right; left; auto | eauto]. }
  destruct (String.eqb name "featuredAction") eqn:H3.
  { apply String.eqb_eq in H3. split; [intros _; right; right; left; auto | eauto]. }
  apply String.eqb_neq in H1, H2, H3.
  assert (Hnone : (if String.eqb name "genres" then None else None)
                  = (None : option (list nat))) by (destruct (String.eqb _ _); reflexivity).
  rewrite Hnone. split.
  - intros [x Hx]. discriminate Hx.
  - intros [<- | [<- | [<- | []]]]; contradiction.
Qed.

(** X15. A featured collection is drawn from the store without
    repetition: [homeFeatured] is one episode or series, when the store
    has any, and [featuredDrama] and [featuredAction] are six of the series
    of their category, or all of them when they are fewer. *)
Theorem featured_collections_are_drawn_from_the_store (name : string) (db : Db)
    (found : list nat) :
  getCollectionByName shuffle name db = Some found ->
  NoDup found
  /\ (name = "homeFeatured" ->
        length found = Nat.min 1 (length (filterWith episodeOrSeries (media db)))
        /\ forall ref, In ref found ->
             exists item, media db !! ref = Some item
               /\ (prop item "type" = Js.Str "episode"
                   \/ prop item "type" = Js.Str "series"))
  /\ (forall category,
        (name = "featuredDrama" /\ category = "Drama")
        \/ (name = "featuredAction" /\ category = "Action") ->
        length found = Nat.min 6 (length (filterWith (seriesOf category) (media db)))
        /\ forall ref, In ref found ->
             exists item, media db !! ref = Some item
               /\ prop item "type" = Js.Str "series"
               /\ prop item "category" = Js.Str category).
Proof.
  unfold getCollectionByName. intros Hfound.
  destruct (String.eqb name "homeFeatured") eqn:H1.
  { injection Hfound as <-.
    destruct (featured episodeOrSeries (media db) 1) as (Hlen & Hnd & Hin).
    split; [exact Hnd |]. split.
    - intros _. split; [exact Hlen |]. intros ref Hr.
      destruct (Hin ref Hr) as (item & Hi & Hk). exists item. split; [exact Hi |].
      apply episodeOrSeries_spec, Hk.
    - apply String.eqb_eq in H1. subst name.
      intros category [[H _] | [H _]]; discriminate H. }
  apply String.eqb_neq in H1.
  destruct (String.eqb name "featuredDrama") eqn:H2.
  { injection Hfound as <-. apply String.eqb_eq in H2. subst name.
    destruct (featured (seriesOf "Drama") (media db) 6) as (Hlen & Hnd & Hin).
    split; [exact Hnd |]. split; [intros H; discriminate H |].
    intros category [[_ ->] | [H _]]; [| discriminate H].
    split; [exact Hlen |]. intros ref Hr.
    destruct (Hin ref Hr) as (item & Hi & Hk). exists item. split; [exact Hi |].
    apply seriesOf_spec, Hk. }
  destruct (String.eqb name "featuredAction") eqn:H3.
  { injection Hfound as <-. apply String.eqb_eq in H3. subst name.
    destruct (featured (seriesOf "Action") (media db) 6) as (Hlen & Hnd & Hin).
    split; [exact Hnd |]. split; [intros H; discriminate H |].
    intros category [[H _] | [_ ->]]; [discriminate H |].
    split; [exact Hlen |]. intros ref Hr.
    destruct (Hin ref Hr) as (item & Hi & Hk). exists item. split; [exact Hi |].
    apply seriesOf_spec, Hk. }
  destruct (String.eqb name "genres"); discriminate Hfound.
Qed.

End CollectionFacts.

(** ** The collections of a user *)

Section UserCollectionFacts.

Variable shuffle : list nat -> list nat.
Hypothesis shuffle_permutes : forall l, Permutation (shuffle l) l.

Variable heap : list Obj.

Lemma intersection_length (others : list nat) (maxLength : nat)
    (array result : list nat) :
  (length result <= maxLength)%nat ->
  (length (baseIntersection heap others maxLength array result) <= maxLength)%nat.
Proof.
  revert result. induction array as [| value rest IH]; intros result Hlen; simpl;
    [exact Hlen |].
  destruct (Nat.ltb (length result) maxLength) eqn:Hlt; [| exact Hlen].
  apply Nat.ltb_lt in Hlt.
  destruct (existsb _ result); [apply IH, Hlen |].
  destruct (existsb _ others); [| apply IH, Hlen].
  apply IH. rewrite length_app. simpl. lia.
Qed.

Lemma intersection_increasing (others : list nat) (maxLength : nat)
    (array result : list nat) :
  StronglySorted lt (result ++ array) ->
  StronglySorted lt (baseIntersection heap others maxLength array result).
Proof.
  revert result. induction array as [| value rest IH]; intros result Hs; simpl.
  - rewrite app_nil_r in Hs. exact Hs.
  - assert (Hskip : StronglySorted lt (result ++ rest)).
    { apply StronglySorted_app in Hs. destruct Hs as (Hlt & Hr & Ha).
      apply StronglySorted_app. split; [| split; [exact Hr |]].
      - intros x1 x2 H1 H2. apply (Hlt x1 x2 H1). right. exact H2.
      - apply StronglySorted_cons in Ha. tauto. }
    destruct (Nat.ltb (length result) maxLength);
      [| apply StronglySorted_app_1_l in Hs; exact Hs].
    destruct (existsb _ result); [apply IH, Hskip |].
    destruct (existsb _ others); [| apply IH, Hskip].
    apply IH. rewrite <- app_assoc. exact Hs.
Qed.

(** Every record taken has the [id] of a record of the other array. *)
Lemma intersection_sound (others : list nat) (maxLength : nat)
    (array result : list nat) :
  (forall ref, In ref result -> existsb (sameId heap ref) others = true) ->
  forall ref, In ref (baseIntersection heap others maxLength array result) ->
    existsb (sameId heap ref) others = true.
Proof.
  revert result. induction array as [| value rest IH]; intros result Hres; simpl;
    [exact Hres |].
  destruct (Nat.ltb (length result) maxLength); [| exact Hres].
  destruct (existsb _ result); [apply IH, Hres |].
  destruct (existsb (sameId heap value) others) eqn:Hoth; [| apply IH, Hres].
  apply IH. intros ref Hin. apply in_app_or in Hin.
  destruct Hin as [Hin | [<- | []]]; [apply Hres, Hin | exact Hoth].
Qed.

(** What was taken stays taken. *)
Lemma intersection_keeps (others : list nat) (maxLength : nat)
    (array result : list nat) (ref : nat) :
  In ref result -> In ref (baseIntersection heap others maxLength array result).
Proof.
  revert result. induction array as [| value rest IH]; intros result Hin; simpl;
    [exact Hin |].
  destruct (Nat.ltb (length result) maxLength); [| exact Hin].
  destruct (existsb _ result); [apply IH, Hin |].
  destruct (existsb _ others); [| apply IH, Hin].
  apply IH. apply in_or_app. left. exact Hin.
Qed.

(** A record of the array whose [id] the other array has is represented
    in the result, unless the result is full. *)
Lemma intersection_complete (others : list nat) (maxLength : nat)
    (array result : list nat) (ref : nat) :
  In ref array ->
  existsb (sameId heap ref) others = true ->
  existsb (sameId heap ref) (baseIntersection heap others maxLength array result)
  = true
  \/ (maxLength <= length (baseIntersection heap others maxLength array result))%nat.
Proof.
  revert result. induction array as [| value rest IH]; intros result Hin Hoth;
    [destruct Hin |].
  simpl. destruct (Nat.ltb (length result) maxLength) eqn:Hlt.
  - destruct Hin as [<- | Hin].
    + destruct (existsb (sameId heap value) result) eqn:Hseen.
      * left. apply existsb_exists in Hseen. destruct Hseen as (x & Hx & Hs).
        apply existsb_exists. exists x. split; [| exact Hs].
        apply intersection_keeps, Hx.
      * rewrite Hoth. left. apply existsb_exists. exists value. split.
        -- apply intersection_keeps. apply in_or_app. right. left. reflexivity.
        -- unfold sameId. rewrite Nat.eqb_refl. reflexivity.
    + destruct (existsb (sameId heap value) result); [apply IH; assumption |].
      destruct (existsb (sameId heap value) others); apply IH; assumption.
  - right. apply Nat.ltb_ge in Hlt. exact Hlt.
Qed.

Lemma intersection_from (others : list nat) (maxLength : nat)
    (array result : list nat) (ref : nat) :
  In ref (baseIntersection heap others maxLength array result) ->
  In ref result \/ In ref array.
Proof.
  revert result. induction array as [| value rest IH]; intros result Hin;
    simpl in Hin; [left; exact Hin |].
  destruct (Nat.ltb (length result) maxLength); [| left; exact Hin].
  destruct (existsb (sameId heap value) result).
  { destruct (IH _ Hin) as [H | H]; [left | right; right]; exact H. }
  destruct (existsb (sameId heap value) others).
  - destruct (IH _ Hin) as [H | H]; [| right; right; exact H].
    apply in_app_or in H. destruct H as [H | [<- | []]]; [left; exact H |].
    right. left. reflexivity.
  - destruct (IH _ Hin) as [H | H]; [left | right; right]; exact H.
Qed.

Lemma seq_increasing (start n : nat) : StronglySorted lt (seq start n).
Proof.
  revert start. induction n as [| n IH]; intros start; simpl; constructor.
  - apply IH.
  - rewrite Forall_forall. intros x Hx. apply list_elem_of_In, in_seq in Hx. lia.
Qed.

End UserCollectionFacts.

Section UserCollectionTheorems.

Variable shuffle : list nat -> list nat.
Hypothesis shuffle_permutes : forall l, Permutation (shuffle l) l.

Lemma myFavorites_facts (db : Db) :
  length (myFavorites shuffle db)
  = Nat.min 4 (length (filterWith (hasType "episode") (media db)))
  /\ NoDup (myFavorites shuffle db)
  /\ forall ref, In ref (myFavorites shuffle db) ->
       exists item, media db !! ref = Some item
                    /\ prop item "type" = Js.Str "episode".
Proof.
  destruct (featured shuffle shuffle_permutes (hasType "episode") (media db) 4)
    as (Hlen & Hnd & Hin).
  split; [exact Hlen |]. split; [exact Hnd |].
  intros ref Hr. destruct (Hin ref Hr) as (item & Hi & Hk).
  exists item. split; [exact Hi |]. apply strict_eq_Str, Hk.
Qed.

(** X16. The collection of a user is known under the one name
    [myFavorites]; it holds at most four records, in the order of the
    store, and each has the [id] of an episode of the store. *)
Theorem myFavorites_holds_at_most_four (name : string) (userToken : Js.Val)
    (db : Db) (found : list nat) :
  getUserCollectionByName shuffle name userToken db = Some found ->
  name = "myFavorites"
  /\ (length found <= 4)%nat
  /\ StronglySorted lt found
  /\ forall ref, In ref found ->
       exists episode item,
         sameId (media db) ref episode = true
         /\ media db !! episode = Some item
         /\ prop item "type" = Js.Str "episode".
Proof.
  unfold getUserCollectionByName.
  destruct (String.eqb name "myFavorites") eqn:Hname; [| discriminate].
  intros H. injection H as <-. apply String.eqb_eq in Hname.
  destruct (myFavorites_facts db) as (Hlen & Hnd & Hep).
  split; [exact Hname |]. unfold intersectionById. split; [| split].
  - etransitivity; [apply intersection_length; simpl; lia |]. lia.
  - apply intersection_increasing. simpl. apply seq_increasing.
  - intros ref Hin.
    pose proof (intersection_sound (media db) _ _ _ [] (fun r (H : In r []) =>
                  match H with end) ref Hin) as Hs.
    apply existsb_exists in Hs. destruct Hs as (episode & He & Hsame).
    destruct (Hep episode He) as (item & Hi & Ht). eauto.
Qed.

(** X17. When no two records of the store have the same [id], the
    collection [myFavorites] is made of four episodes of the store, or of
    all its episodes when they are fewer, in the order of the store. *)
Theorem myFavorites_are_four_episodes (userToken : Js.Val) (db : Db) :
  (forall ref other,
     (ref < length (media db))%nat -> (other < length (media db))%nat ->
     sameId (media db) ref other = true -> ref = other) ->
  exists found,
    getUserCollectionByName shuffle "myFavorites" userToken db = Some found
    /\ length found
       = Nat.min 4 (length (filterWith (hasType "episode") (media db)))
    /\ StronglySorted lt found
    /\ forall ref, In ref found ->
         exists item, media db !! ref = Some item
                      /\ prop item "type" = Js.Str "episode".
Proof.
  intros Hunique. unfold getUserCollectionByName. simpl String.eqb. cbv iota.
  eexists. split; [reflexivity |].
  destruct (myFavorites_facts db) as (Hlen & Hnd & Hep).
  set (favorites := myFavorites shuffle db) in *.
  set (array := seq 0 (length (media db))).
  unfold intersectionById. fold array.
  set (found := baseIntersection (media db) favorites
                  (Nat.min (length array) (length favorites)) array []).
  assert (Hvalid : forall ref, In ref favorites -> (ref < length (media db))%nat).
  { intros ref Hr. destruct (Hep ref Hr) as (item & Hi & _).
    apply lookup_lt_is_Some_1. eauto. }
  assert (Hsorted : StronglySorted lt found).
  { apply intersection_increasing. simpl. apply seq_increasing. }
  assert (Hfrom : forall ref, In ref found -> (ref < length (media db))%nat).
  { intros ref Hr. destruct (intersection_from _ _ _ _ _ _ Hr) as [[] | Ha].
    apply in_seq in Ha. lia. }
  assert (Hsub : forall ref, In ref found -> In ref favorites).
  { intros ref Hr.
    pose proof (intersection_sound (media db) _ _ _ [] (fun r (H : In r []) =>
                  match H with end) ref Hr) as Hs.
    apply existsb_exists in Hs. destruct Hs as (episode & He & Hsame).
    rewrite (Hunique ref episode (Hfrom ref Hr) (Hvalid episode He) Hsame).
    exact He. }
  assert (Hmax : Nat.min (length array) (length favorites) = length favorites).
  { apply Nat.min_r. unfold array. rewrite length_seq.
    assert (Hle : (length (filterWith (hasType "episode") (media db))
                   <= length (media db))%nat).
    { unfold filterWith. etransitivity; [apply List.filter_length_le |].
      rewrite length_seq. reflexivity. }
    lia. }
  assert (Hperm : Permutation found favorites).
  { assert (Hndf : NoDup found) by (apply increasing_NoDup, Hsorted).
    apply NoDup_Permutation; [exact Hndf | exact Hnd |].
    intros ref. rewrite !list_elem_of_In. split; [apply Hsub |].
    intros Hr.
    destruct (intersection_complete (media db) favorites
                (Nat.min (length array) (length favorites)) array [] ref)
      as [Hrep | Hfull].
    - apply in_seq. specialize (Hvalid ref Hr). lia.
    - apply existsb_exists. exists ref. split; [exact Hr |].
      unfold sameId. rewrite Nat.eqb_refl. reflexivity.
    - apply existsb_exists in Hrep. destruct Hrep as (x & Hx & Hsame).
      rewrite (Hunique ref x (Hvalid ref Hr) (Hfrom x Hx) Hsame). exact Hx.
    - fold found in Hfull. rewrite Hmax in Hfull.
      assert (Hp : Permutation found favorites).
      { apply submseteq_length_Permutation; [| exact Hfull].
        apply NoDup_submseteq; [exact Hndf |].
        intros x. rewrite !list_elem_of_In. apply Hsub. }
      apply (Permutation_in _ (Permutation_sym Hp)). exact Hr. }
  split; [rewrite (Permutation_length Hperm); exact Hlen |].
  split; [exact Hsorted |].
  intros ref Hr. apply Hep, Hsub, Hr.
Qed.

End UserCollectionTheorems.

(** ** What a query leaves in the store *)

Section Traces.

Variable lib : Library.
Variable module : Loaded.

(** What every callback keeps true of a record stays true of every
    record of the store. *)
Lemma forEach_keeps (P : Obj -> Prop) (callback : Obj -> option Obj)
    (collection : list nat) (heap : list Obj) (ref : nat) :
  (forall object object', callback object = Some object' -> P object -> P object') ->
  P (deref heap ref) ->
  P (deref (snd (forEach callback collection heap)) ref).
Proof.
  intros Hk. revert heap. induction collection as [| r rest IH]; intros heap HP;
    simpl; [exact HP |].
  destruct (callback (deref heap r)) as [object |] eqn:Hc; [| exact HP].
  apply IH. rewrite deref_insert. destruct (decide _) as [[<- _] | _]; [| exact HP].
  apply (Hk _ _ Hc HP).
Qed.

Lemma epgUtils_snd (programs : list nat) (epgFilters : EpgFilters.t)
    (heap : list Obj) :
  snd (epgUtils lib module programs epgFilters heap)
  = snd (forEach (markLive lib module) programs heap).
Proof.
  unfold epgUtils. destruct (forEach _ programs heap) as [[u |] marked];
    [| reflexivity].
  repeat (destruct (Js.truthy _); [reflexivity |]). reflexivity.
Qed.

Lemma getPrograms_snd (filters : gmap string Js.Prim) (epgFilters : EpgFilters.t)
    (limit : Js.Val) (db : Db) :
  programs (snd (getPrograms lib module filters epgFilters limit db))
  = match forEach (placeInWeek lib module)
            (Lodash.filter (programs db) filters) (programs db) with
    | (Some _, placed) =>
        snd (forEach (markLive lib module)
               (Lodash.filter (programs db) filters) placed)
    | (None, placed) => placed
    end.
Proof.
  unfold getPrograms.
  destruct (forEach _ _ (programs db)) as [[u |] placed]; [| reflexivity].
  rewrite <- (epgUtils_snd (Lodash.filter (programs db) filters) epgFilters placed).
  destruct (epgUtils _ _ _ _ placed) as [[found |] marked]; reflexivity.
Qed.

(** X18. A query never clears a mark: a program that carries [isLive]
    before a call of [getPrograms] carries it after, whatever the instant
    of the module, the filters and the flags. *)
Theorem getPrograms_never_clears_a_mark (filters : gmap string Js.Prim)
    (epgFilters : EpgFilters.t) (limit : Js.Val) (db : Db) (ref : nat) :
  Js.truthy (prop (deref (programs db) ref) "isLive") = true ->
  Js.truthy
    (prop (deref (programs (snd (getPrograms lib module filters epgFilters limit db)))
             ref) "isLive")
  = true.
Proof.
  intros Hmark. rewrite getPrograms_snd.
  set (P := fun object : Obj => Js.truthy (prop object "isLive") = true).
  assert (Hplace : forall object object',
            placeInWeek lib module object = Some object' -> P object -> P object').
  { intros object object' H HP. unfold placeInWeek in H.
    destruct (plusDuration lib (startOfWeek module) (prop object "airTime"));
      simpl in H; [| discriminate H]. injection H as <-.
    unfold P. rewrite prop_insert_ne by discriminate. exact HP. }
  assert (Hmarking : forall object object',
            markLive lib module object = Some object' -> P object -> P object').
  { intros object object' H HP. unfold markLive in H.
    destruct (isAiring lib module object) as [[|] |]; simpl in H;
      try discriminate H; injection H as <-.
    - unfold P. rewrite prop_insert_eq. reflexivity.
    - exact HP. }
  pose proof (forEach_keeps P _ (Lodash.filter (programs db) filters) (programs db)
                ref Hplace Hmark) as H1.
  destruct (forEach (placeInWeek lib module) _ (programs db)) as [[u |] placed];
    simpl in H1; [| exact H1].
  apply (forEach_keeps P _ _ placed ref Hmarking H1).
Qed.

(** X19. A call of [getPrograms] that returns has placed every program
    that passes the filters, those it does not return as well: each holds
    under [airTimestamp] the start of the week of the module plus the
    [airTime] of the program, in place of what it held before. *)
Theorem getPrograms_places_every_selected_program (filters : gmap string Js.Prim)
    (epgFilters : EpgFilters.t) (limit : Js.Val) (db : Db) (found : list nat)
    (ref : nat) :
  fst (getPrograms lib module filters epgFilters limit db) = Some found ->
  In ref (Lodash.filter (programs db) filters) ->
  exists airTimestamp,
    plusDuration lib (startOfWeek module) (prop (deref (programs db) ref) "airTime")
    = Some airTimestamp
    /\ prop (deref (programs (snd (getPrograms lib module filters epgFilters
                                     limit db))) ref) "airTimestamp"
       = Js.DateTime airTimestamp.
Proof.
  intros Hfound Hin. rewrite getPrograms_snd. revert Hfound. unfold getPrograms.
  destruct (forEach (placeInWeek lib module) _ (programs db))
    as [[u |] placed] eqn:Hplace; [| discriminate].
  intros _.
  destruct (forEach_ok _ _ (programs db) (placeInWeek_settles lib module)
              (forEach_returned _ _ _ _ _ (placeInWeek_settles lib module) Hplace))
    as (placed' & Hplace' & _ & Hinp & _).
  rewrite Hplace in Hplace'. injection Hplace' as _ <-.
  specialize (Hinp ref Hin (filter_in_range _ _ _ Hin)).
  unfold placeInWeek in Hinp.
  destruct (plusDuration lib (startOfWeek module)
              (prop (deref (programs db) ref) "airTime")) as [t |];
    simpl in Hinp; [| discriminate Hinp].
  injection Hinp as Hplaced. exists t. split; [reflexivity |].
  pose proof (forEach_sameBut ["isLive"] _ (Lodash.filter (programs db) filters)
                placed (markLive_writesOnly lib module)) as [_ Hsame].
  unfold prop. rewrite Hsame by (intros [H | []]; discriminate H).
  rewrite <- Hplaced, lookup_insert_eq. reflexivity.
Qed.

(** X20. A call of [getMediaItems] that is not beyond the last page and
    returns has stamped every record of the query, those outside the page
    as well, and has left every other record as it was.  The page, the
    page size and the last page are absent or are strings, numbers or
    booleans. *)
Theorem getMediaItems_stamps_every_record_of_the_query
    (filters : gmap string Js.Prim) (sorts : list string)
    (maxPage perPage page : option Js.Prim) (q : Js.Val) (db : Db)
    (result : MediaItems) (ref : nat) :
  let records := baseQuery lib filters sorts q db in
  let after :=
    snd (getMediaItems lib module filters sorts
           (argument maxPage) (argument perPage) (argument page) q db) in
  Js.gt (Lodash.defaultTo (argument page) (Js.Number (Js.Int 1)))
        (Lodash.defaultTo (argument maxPage) (Js.Number (Js.Int 100))) = false ->
  fst (getMediaItems lib module filters sorts
         (argument maxPage) (argument perPage) (argument page) q db)
  = Some result ->
  (In ref records -> (ref < length (media db))%nat ->
   stampStartsOn lib module (deref (media db) ref) = Some (deref (media after) ref))
  /\ (~ In ref records -> deref (media after) ref = deref (media db) ref).
Proof.
  cbv zeta. unfold getMediaItems. cbv zeta. intros Hgt. rewrite Hgt.
  destruct (forEach (stampStartsOn lib module) _ (media db))
    as [[u |] stamped] eqn:Hstamp; [| discriminate].
  intros _. cbn [snd media].
  destruct (forEach_ok _ _ (media db) (stampStartsOn_settles lib module)
              (forEach_returned _ _ _ _ _ (stampStartsOn_settles lib module) Hstamp))
    as (stamped' & Hstamp' & _ & Hin & Hout).
  rewrite Hstamp in Hstamp'. injection Hstamp' as _ <-.
  split; [apply Hin | apply Hout].
Qed.

Lemma strict_eq_NaN (v : Js.Val) : Js.strict_eq v (Js.Number Js.NaN) = false.
Proof. destruct v as [| | b | [z | m e | negative |] | s | ms | ps]; reflexivity. Qed.

(** X21. A [forDay] that is no number selects nothing: under the mode
    [forDay] with a string that is no numeric literal, which [Number]
    makes NaN, the result is empty, and the call does not throw. *)
Theorem epgUtils_forDay_without_a_number_is_empty (programs : list nat)
    (epgFilters : EpgFilters.t) (heap : list Obj) (day : string) :
  (forall ref, In ref programs -> scheduled (deref heap ref)) ->
  modeOf epgFilters = ForDay (Js.Str day) ->
  Js.string_to_number day = Js.NaN ->
  fst (epgUtils lib module programs epgFilters heap) = Some [].
Proof.
  intros Hs Hmode Hnan.
  change (Js.to_number (Js.Str day) = Js.NaN) in Hnan.
  assert (Hflags : Js.truthy (EpgFilters.now epgFilters) = false
                   /\ Js.truthy (EpgFilters.upNext epgFilters) = false
                   /\ Js.truthy (EpgFilters.justEnded epgFilters) = false
                   /\ Js.truthy (EpgFilters.forDay epgFilters) = true
                   /\ EpgFilters.forDay epgFilters = Js.Str day).
  { revert Hmode. unfold modeOf.
    repeat (destruct (Js.truthy _); try discriminate).
    intros H. injection H as H. auto. }
  destruct Hflags as (H1 & H2 & H3 & H4 & H5).
  destruct (marking_scheduled lib module programs heap Hs) as (marked & Hrun & Hm).
  unfold epgUtils. rewrite Hrun, H1, H2, H3, H4, H5. cbn [fst].
  rewrite (filterM_total _ (fun _ => false)).
  - induction programs as [| x rest IH]; [reflexivity |]. simpl.
    destruct (List.filter (fun _ => false) rest) eqn:Hf; [reflexivity |].
    exfalso. assert (Hin : In n (List.filter (fun _ : nat => false) rest))
      by (rewrite Hf; left; reflexivity).
    apply List.filter_In in Hin. destruct Hin as [_ Hin]. discriminate Hin.
  - intros ref Hin. unfold onDay. rewrite Hnan.
    rewrite (marked_airTimestamp module programs heap marked ref (Hm ref Hin)).
    destruct (Hs ref Hin) as (t & d & Ht & _). rewrite Ht.
    rewrite strict_eq_NaN. reflexivity.
Qed.

End Traces.

(** ** The rest of the engine on concrete stores *)

(** A guide of 150 programs, asked without a flag and with a limit of
    500, gives its first 100 programs. *)
Lemma getPrograms_on_a_long_guide :
  fst (getPrograms Utc.library (loadedAt monday) ∅ noFlags (num 500) longGuide)
  = Some (seq 0 100)
  /\ (length (seq 0 100) <= 100)%nat.
Proof.
  assert (H : fst (getPrograms Utc.library (loadedAt monday) ∅ noFlags (num 500)
                     longGuide)
              = Some (seq 0 100)) by (vm_compute; reflexivity).
  split; [exact H |].
  exact (getPrograms_returns_at_most_100 Utc.library (loadedAt monday) ∅ noFlags
           (num 500) longGuide (seq 0 100) H).
Defined.

(** With every flag set the answer is that of [now] alone. *)
Lemma every_flag_is_now :
  modeOf everyFlag = modeOf onlyNow
  /\ epgUtils Utc.library at200000 [0%nat; 1%nat; 2%nat] everyFlag aroundNow
     = epgUtils Utc.library at200000 [0%nat; 1%nat; 2%nat] onlyNow aroundNow.
Proof.
  split; [reflexivity |].
  exact (epgUtils_first_flag_decides Utc.library at200000 [0%nat; 1%nat; 2%nat]
           everyFlag onlyNow aroundNow eq_refl).
Defined.

Lemma aroundNow_scheduled :
  forall ref, In ref [0%nat; 1%nat; 2%nat] -> scheduled (deref aroundNow ref).
Proof.
  intros ref [<- | [<- | [<- | []]]];
    [exists 0, 60 | exists 140000, 120 | exists 300000, 60];
    split; vm_compute; reflexivity.
Defined.

(** At the instant 200000, of a program that ended, one on the air and
    one to come, the mode [upNext] returns the last. *)
Lemma upNext_at_200000 :
  (forall ref, In ref [0%nat; 1%nat; 2%nat] -> scheduled (deref aroundNow ref))
  /\ modeOf onlyUpNext = UpNext
  /\ exists marked,
       epgUtils Utc.library at200000 [0%nat; 1%nat; 2%nat] onlyUpNext aroundNow
       = (Some [2%nat], marked).
Proof.
  split; [exact aroundNow_scheduled |]. split; [reflexivity |].
  destruct (epgUtils_upNext_keeps_programs_to_come Utc.library at200000
              [0%nat; 1%nat; 2%nat] onlyUpNext aroundNow aroundNow_scheduled eq_refl)
    as (marked & Hrun & _).
  exists marked. rewrite Hrun. reflexivity.
Defined.

(** Without a flag the three programs are returned. *)
Lemma no_flag_at_200000 :
  (forall ref, In ref [0%nat; 1%nat; 2%nat] -> scheduled (deref aroundNow ref))
  /\ modeOf noFlags = Everything
  /\ fst (epgUtils Utc.library at200000 [0%nat; 1%nat; 2%nat] noFlags aroundNow)
     = Some [0%nat; 1%nat; 2%nat].
Proof.
  split; [exact aroundNow_scheduled |]. split; [reflexivity |].
  exact (epgUtils_without_flag_returns_all Utc.library at200000
           [0%nat; 1%nat; 2%nat] noFlags aroundNow aroundNow_scheduled eq_refl).
Defined.

(** The three modes at the instant 200000 share out the three programs. *)
Lemma three_modes_at_200000 :
  (forall ref, In ref [0%nat; 1%nat; 2%nat] -> scheduled (deref aroundNow ref))
  /\ modeOf onlyNow = RunningNow
  /\ modeOf onlyUpNext = UpNext
  /\ modeOf onlyJustEnded = JustEnded
  /\ exists r u e,
       fst (epgUtils Utc.library at200000 [0%nat; 1%nat; 2%nat] onlyNow aroundNow)
       = Some r
       /\ fst (epgUtils Utc.library at200000 [0%nat; 1%nat; 2%nat] onlyUpNext
                 aroundNow) = Some u
       /\ fst (epgUtils Utc.library at200000 [0%nat; 1%nat; 2%nat] onlyJustEnded
                 aroundNow) = Some e
       /\ forall ref, In ref [0%nat; 1%nat; 2%nat] ->
            In ref r \/ In ref u \/ In ref e.
Proof.
  split; [exact aroundNow_scheduled |]. repeat (split; [reflexivity |]).
  exact (every_program_is_running_to_come_or_ended Utc.library at200000
           [0%nat; 1%nat; 2%nat] onlyNow onlyUpNext onlyJustEnded aroundNow
           aroundNow_scheduled eq_refl eq_refl eq_refl).
Defined.

(** The query for the programs running now, asked again on the store the
    first call left. *)
Lemma getPrograms_again_on_the_guide :
  (∅ : gmap string Js.Prim) !! "airTimestamp" = None
  /\ (∅ : gmap string Js.Prim) !! "isLive" = None
  /\ fst (getPrograms Utc.library (loadedAt duringShow) ∅ onlyNow Js.Undefined guide)
     = Some [0%nat]
  /\ getPrograms Utc.library (loadedAt duringShow) ∅ onlyNow Js.Undefined
       (snd (getPrograms Utc.library (loadedAt duringShow) ∅ onlyNow
               Js.Undefined guide))
     = (Some [0%nat],
        snd (getPrograms Utc.library (loadedAt duringShow) ∅ onlyNow
               Js.Undefined guide)).
Proof.
  assert (H : fst (getPrograms Utc.library (loadedAt duringShow) ∅ onlyNow
                     Js.Undefined guide) = Some [0%nat])
    by (vm_compute; reflexivity).
  split; [reflexivity |]. split; [reflexivity |]. split; [exact H |].
  exact (getPrograms_again_is_the_same Utc.library (loadedAt duringShow) ∅
           onlyNow Js.Undefined guide [0%nat] eq_refl eq_refl H).
Defined.

(** The episodes 3, 1, 2 sorted by their number. *)
Lemma shuffled_episodes_sorted :
  Js.truthy Js.Undefined = false
  /\ (forall ref, In ref (Lodash.filter (media shuffledEpisodes) ∅) ->
        property Utc.library "episodeNumber" (deref (media shuffledEpisodes) ref)
        = Js.Number (Js.Int (shuffledNumber ref)))
  /\ baseQuery Utc.library ∅ ["episodeNumber"] Js.Undefined shuffledEpisodes
     = [1%nat; 2%nat; 0%nat]
  /\ StronglySorted (byKey shuffledNumber)
       (baseQuery Utc.library ∅ ["episodeNumber"] Js.Undefined shuffledEpisodes).
Proof.
  assert (H : forall ref, In ref (Lodash.filter (media shuffledEpisodes) ∅) ->
                property Utc.library "episodeNumber"
                  (deref (media shuffledEpisodes) ref)
                = Js.Number (Js.Int (shuffledNumber ref))).
  { intros ref Hin. vm_compute in Hin.
    destruct Hin as [<- | [<- | [<- | []]]]; vm_compute; reflexivity. }
  split; [reflexivity |]. split; [exact H |]. split; [vm_compute; reflexivity |].
  exact (baseQuery_sorts_ascending_and_stable Utc.library ∅ "episodeNumber"
           Js.Undefined shuffledEpisodes shuffledNumber eq_refl H).
Defined.

Lemma threeEpisodes_stamp :
  forall ref, In ref (baseQuery Utc.library ∅ [] Js.Undefined threeEpisodes) ->
    is_Some (stampStartsOn Utc.library (loadedAt monday)
               (deref (media threeEpisodes) ref)).
Proof.
  intros ref Hin. vm_compute in Hin.
  destruct Hin as [<- | [<- | [<- | []]]]; apply is_Some_alt; vm_compute; exact I.
Defined.

(** Parameters that are no whole numbers: page 1.5 with 1.5 records per
    page over three episodes is the first episode, and the next page is
    2.5. *)
Lemma getMediaItems_on_odd_parameters :
  (forall ref, In ref (baseQuery Utc.library ∅ [] Js.Undefined threeEpisodes) ->
     is_Some (stampStartsOn Utc.library (loadedAt monday)
                (deref (media threeEpisodes) ref)))
  /\ exists result,
       fst (getMediaItems Utc.library (loadedAt monday) ∅ []
              Js.Undefined (Js.Str "1.5") (Js.Str "1.5") Js.Undefined threeEpisodes)
       = Some result
       /\ items result = [0%nat]
       /\ nextPage result = Js.Number (Js.Frac 5 1).
Proof.
  split; [exact threeEpisodes_stamp |].
  destruct (getMediaItems_returns_for_any_parameters Utc.library (loadedAt monday)
              ∅ [] None (Some (Js.PStr "1.5")) (Some (Js.PStr "1.5")) Js.Undefined
              threeEpisodes threeEpisodes_stamp)
    as (result & Hrun & _).
  exists result. split; [exact Hrun |].
  vm_compute in Hrun. injection Hrun as <-. split; reflexivity.
Defined.

Lemma twentyFive_stamp :
  forall ref, In ref (baseQuery Utc.library ∅ [] Js.Undefined twentyFive) ->
    is_Some (stampStartsOn Utc.library (loadedAt monday)
               (deref (media twentyFive) ref)).
Proof.
  intros ref Hin. vm_compute in Hin.
  repeat (destruct Hin as [<- | Hin]; [apply is_Some_alt; vm_compute; exact I |]).
  destruct Hin.
Defined.

(** Of 25 records by pages of 10, page 3 holds the last 5. *)
Lemma third_page_of_twenty_five :
  1 <= 3 <= 100
  /\ 0 <= 10
  /\ (forall ref, In ref (baseQuery Utc.library ∅ [] Js.Undefined twentyFive) ->
        is_Some (stampStartsOn Utc.library (loadedAt monday)
                   (deref (media twentyFive) ref)))
  /\ exists result,
       fst (getMediaItems Utc.library (loadedAt monday) ∅ []
              (param None) (param (Some 10)) (param (Some 3)) Js.Undefined
              twentyFive)
       = Some result
       /\ Z.of_nat (length (items result)) = 5.
Proof.
  split; [lia |]. split; [lia |]. split; [exact twentyFive_stamp |].
  destruct (page_holds_what_is_left Utc.library (loadedAt monday) ∅ []
              Js.Undefined twentyFive (Some 3) (Some 10) None
              ltac:(simpl; lia) ltac:(simpl; lia) twentyFive_stamp)
    as (result & Hrun & Hlen).
  exists result. split; [exact Hrun |]. rewrite Hlen. vm_compute. reflexivity.
Defined.

(** A program of season 3, stored as a number, asked for by
    [bySeasonNumber=3]: the [/epg] route does not find it, the [/media]
    route does. *)
Lemma season_three_on_both_routes :
  thirdSeason !! 0%nat = Some (deref thirdSeason 0)
  /\ deref thirdSeason 0 !! "seasonNumber" = Some (Js.Number (Js.Int 3))
  /\ is_Some (epgRouteFilters Utc.library [("bySeasonNumber", "3")] !! "seasonNumber")
  /\ ~ In 0%nat (Lodash.filter thirdSeason
                   (epgRouteFilters Utc.library [("bySeasonNumber", "3")]))
  /\ Lodash.filter thirdSeason (filters Utc.library [("bySeasonNumber", "3")])
     = [0%nat].
Proof.
  assert (H3 : is_Some (epgRouteFilters Utc.library [("bySeasonNumber", "3")]
                          !! "seasonNumber"))
    by (apply is_Some_alt; vm_compute; exact I).
  split; [reflexivity |]. split; [vm_compute; reflexivity |]. split; [exact H3 |].
  split; [| vm_compute; reflexivity].
  exact (epg_filters_never_match_a_number Utc.library [("bySeasonNumber", "3")]
           thirdSeason 0 "seasonNumber" (deref thirdSeason 0) (Js.Int 3)
           eq_refl ltac:(vm_compute; reflexivity) H3).
Defined.

(** A page number in the query of the [/epg] route changes nothing. *)
Lemma page_on_the_epg_route :
  In "page" ["page"; "perPage"; "maxPage"; "limit"]
  /\ epgRouteQuery Utc.library (loadedAt duringShow)
       ([("now", "true")] ++ ("page", "2") :: [("byType", "episode")]) guide
     = epgRouteQuery Utc.library (loadedAt duringShow)
         ([("now", "true")] ++ [("byType", "episode")]) guide.
Proof.
  split; [left; reflexivity |].
  exact (epg_route_ignores_pagination Utc.library (loadedAt duringShow)
           [("now", "true")] [("byType", "episode")] "page" "2" guide
           (or_introl eq_refl)).
Defined.

Lemma rev_permutes : forall l : list nat, Permutation (rev l) l.
Proof. intros l. symmetry. apply Permutation_rev. Defined.

(** With the shuffle that reverses, the dramas of the catalog. *)
Lemma featuredDrama_of_the_catalog :
  (forall l : list nat, Permutation (rev l) l)
  /\ getCollectionByName (@rev nat) "featuredDrama" catalog = Some [0%nat]
  /\ length [0%nat]
     = Nat.min 6 (length (filterWith (seriesOf "Drama") (media catalog)))
  /\ forall ref, In ref [0%nat] ->
       exists item, media catalog !! ref = Some item
         /\ prop item "type" = Js.Str "series"
         /\ prop item "category" = Js.Str "Drama".
Proof.
  split; [exact rev_permutes |]. split; [vm_compute; reflexivity |].
  destruct (featured_collections_are_drawn_from_the_store (@rev nat) rev_permutes
              "featuredDrama" catalog [0%nat] ltac:(vm_compute; reflexivity))
    as (_ & _ & H).
  exact (H "Drama" (or_introl (conj eq_refl eq_refl))).
Defined.

(** With the shuffle that reverses, the favorites over six episodes. *)
Lemma myFavorites_of_six_episodes :
  (forall l : list nat, Permutation (rev l) l)
  /\ getUserCollectionByName (@rev nat) "myFavorites" Js.Undefined library6
     = Some [3%nat; 4%nat; 5%nat; 6%nat]
  /\ (length [3%nat; 4%nat; 5%nat; 6%nat] <= 4)%nat
  /\ StronglySorted lt [3%nat; 4%nat; 5%nat; 6%nat].
Proof.
  split; [exact rev_permutes |]. split; [vm_compute; reflexivity |].
  destruct (myFavorites_holds_at_most_four (@rev nat) rev_permutes "myFavorites"
              Js.Undefined library6 [3%nat; 4%nat; 5%nat; 6%nat]
              ltac:(vm_compute; reflexivity))
    as (_ & Hlen & Hsorted & _).
  split; [exact Hlen | exact Hsorted].
Defined.

Lemma library6_ids :
  forall ref other,
    (ref < length (media library6))%nat -> (other < length (media library6))%nat ->
    sameId (media library6) ref other = true -> ref = other.
Proof.
  intros ref other H1 H2.
  do 8 (destruct ref as [| ref];
        [do 8 (destruct other as [| other];
               [intros Hs; first [reflexivity | vm_compute in Hs; discriminate Hs] |]);
         vm_compute in H2; lia |]).
  vm_compute in H1. lia.
Defined.

(** Six episodes with an [id] of their own: four of them are the
    favorites. *)
Lemma four_of_six_episodes :
  (forall l : list nat, Permutation (rev l) l)
  /\ (forall ref other,
        (ref < length (media library6))%nat ->
        (other < length (media library6))%nat ->
        sameId (media library6) ref other = true -> ref = other)
  /\ exists found,
       getUserCollectionByName (@rev nat) "myFavorites" Js.Undefined library6
       = Some found
       /\ length found = 4%nat.
Proof.
  split; [exact rev_permutes |]. split; [exact library6_ids |].
  destruct (myFavorites_are_four_episodes (@rev nat) rev_permutes Js.Undefined
              library6 library6_ids)
    as (found & Hrun & Hlen & _).
  exists found. split; [exact Hrun |]. rewrite Hlen. vm_compute. reflexivity.
Defined.

(** The mark a query left at 01:30 is still there after a query of a
    module loaded at 00:00, at which the program is not on the air. *)
Lemma mark_survives_another_module :
  Js.truthy (prop (deref (programs afterFirstQuery) 0) "isLive") = true
  /\ liveAt (now (loadedAt monday)) (deref (programs afterFirstQuery) 0) = false
  /\ Js.truthy
       (prop (deref (programs (snd (getPrograms Utc.library (loadedAt monday) ∅
                                      onlyNow Js.Undefined afterFirstQuery)))
                0) "isLive")
     = true.
Proof.
  assert (H : Js.truthy (prop (deref (programs afterFirstQuery) 0) "isLive") = true)
    by (vm_compute; reflexivity).
  split; [exact H |]. split; [vm_compute; reflexivity |].
  exact (getPrograms_never_clears_a_mark Utc.library (loadedAt monday) ∅ onlyNow
           Js.Undefined afterFirstQuery 0 H).
Defined.

(** Asked at 00:00 for the programs running now, the guide returns
    nothing and its program is placed on Monday at 01:00 all the same. *)
Lemma program_placed_though_not_returned :
  fst (getPrograms Utc.library (loadedAt monday) ∅ onlyNow Js.Undefined guide)
  = Some []
  /\ In 0%nat (Lodash.filter (programs guide) ∅)
  /\ exists airTimestamp,
       plusDuration Utc.library (startOfWeek (loadedAt monday))
         (prop (deref (programs guide) 0) "airTime")
       = Some airTimestamp
       /\ prop (deref (programs (snd (getPrograms Utc.library (loadedAt monday) ∅
                                        onlyNow Js.Undefined guide))) 0)
            "airTimestamp"
          = Js.DateTime airTimestamp.
Proof.
  assert (H1 : fst (getPrograms Utc.library (loadedAt monday) ∅ onlyNow
                      Js.Undefined guide) = Some []) by (vm_compute; reflexivity).
  assert (H2 : In 0%nat (Lodash.filter (programs guide) ∅))
    by (vm_compute; left; reflexivity).
  split; [exact H1 |]. split; [exact H2 |].
  exact (getPrograms_places_every_selected_program Utc.library (loadedAt monday) ∅
           onlyNow Js.Undefined guide [] 0 H1 H2).
Defined.

(** Page 1 by one of three series, asked by the strings of a query
    string: the third series, outside the page, is stamped with Tuesday
    00:00. *)
Lemma series_stamped_outside_the_page :
  Js.gt (Lodash.defaultTo (Js.Str "1") (Js.Number (Js.Int 1)))
        (Lodash.defaultTo Js.Undefined (Js.Number (Js.Int 100))) = false
  /\ fst (getMediaItems Utc.library (loadedAt monday) ∅ [] Js.Undefined (Js.Str "1")
            (Js.Str "1") Js.Undefined premieres)
     = Some {| nextPage := num 2; items := [0%nat] |}
  /\ stampStartsOn Utc.library (loadedAt monday) (deref (media premieres) 2)
     = Some (deref (media (snd (getMediaItems Utc.library (loadedAt monday) ∅ []
                                  Js.Undefined (Js.Str "1") (Js.Str "1") Js.Undefined
                                  premieres))) 2)
  /\ prop (deref (media (snd (getMediaItems Utc.library (loadedAt monday) ∅ []
                                Js.Undefined (Js.Str "1") (Js.Str "1") Js.Undefined
                                premieres))) 2) "startsOnTimestamp"
     = Js.DateTime (monday + Utc.day).
Proof.
  assert (H1 : Js.gt (Lodash.defaultTo (Js.Str "1") (Js.Number (Js.Int 1)))
                     (Lodash.defaultTo Js.Undefined (Js.Number (Js.Int 100))) = false)
    by (vm_compute; reflexivity).
  assert (H2 : fst (getMediaItems Utc.library (loadedAt monday) ∅ [] Js.Undefined
                      (Js.Str "1") (Js.Str "1") Js.Undefined premieres)
               = Some {| nextPage := num 2; items := [0%nat] |})
    by (vm_compute; reflexivity).
  split; [exact H1 |]. split; [exact H2 |]. split; [| vm_compute; reflexivity].
  destruct (getMediaItems_stamps_every_record_of_the_query Utc.library
              (loadedAt monday) ∅ [] None (Some (Js.PStr "1")) (Some (Js.PStr "1"))
              Js.Undefined premieres {| nextPage := num 2; items := [0%nat] |} 2 H1 H2)
    as [Hin _].
  apply Hin; [vm_compute; auto | vm_compute; lia].
Defined.

(** The mode [forDay] with the timestamp abc. *)
Lemma forDay_abc_at_200000 :
  (forall ref, In ref [0%nat; 1%nat; 2%nat] -> scheduled (deref aroundNow ref))
  /\ modeOf forDayAbc = ForDay (Js.Str "abc")
  /\ Js.string_to_number "abc" = Js.NaN
  /\ fst (epgUtils Utc.library at200000 [0%nat; 1%nat; 2%nat] forDayAbc aroundNow)
     = Some [].
Proof.
  split; [exact aroundNow_scheduled |]. split; [reflexivity |]. split; [reflexivity |].
  exact (epgUtils_forDay_without_a_number_is_empty Utc.library at200000
           [0%nat; 1%nat; 2%nat] forDayAbc aroundNow "abc"
           aroundNow_scheduled eq_refl eq_refl).
Defined.
